(** * Pull-request delivery metrics (boots): shallow embedding and properties

    The embedded program is the latest revision held in [src/metrics.go]
    (its lines 186 to 401: [AnalyzePullRequests], [processPullRequest],
    [getAllTimelineEventsForPullRequest], [getDeploymentTimesForSHA],
    [doesPullRequestHaveIssueAttached]) and the one of [src/main.go]
    ([getPullRequestsFromLastTwoWeeks], [Metrics]).

    Go values are modelled as follows.
    - [time.Time] is an instant, counted in nanoseconds from Go's zero
      time (January 1, year 1, 00:00 UTC); [IsZero] is equality with 0.
    - [time.Duration] is an [int64] count of nanoseconds, a [Z] whose
      wrap-around and saturation are written out.
    - [float64] values are produced only by [Duration.Hours] and by the
      median; they are modelled as exact rationals ([Q]).
    - a Go map from string to time is a [gmap string Time].
    - a call that ends the program ([log.Fatal], a nil dereference, an
      integer division by zero) is an [Aborts] outcome. *)

From Stdlib Require Import ZArith QArith Lia.
From stdpp Require Import base option list sorting gmap strings.

Local Open Scope Z_scope.

(** ** Go's [int64] and [uint64] arithmetic *)

Module GoInt.

Definition minInt64 : Z := - 2 ^ 63.
Definition maxInt64 : Z := 2 ^ 63 - 1.

(** Two's-complement wrap-around of a signed 64-bit result. *)
Definition wrap64 (z : Z) : Z := (z + 2 ^ 63) mod 2 ^ 64 - 2 ^ 63.

(** [uint64(x)] for an [int64] [x], and unsigned wrap-around. *)
Definition wrapU64 (z : Z) : Z := z mod 2 ^ 64.

Definition inInt64 (z : Z) : Prop := minInt64 <= z <= maxInt64.

End GoInt.

(** ** Package [time] *)

Module GoTime.
Import GoInt.

Definition Time := Z.
Definition Duration := Z.

Definition zeroTime : Time := 0.

Definition Second : Duration := 1000000000.
Definition Hour : Duration := 3600 * Second.

Definition minDuration : Duration := minInt64.
Definition maxDuration : Duration := maxInt64.

(** [func (t Time) IsZero() bool] *)
Definition IsZero (t : Time) : bool := t =? 0.

(** [func (t Time) Sub(u Time) Duration]: the difference [t - u]; when
    it does not fit a [Duration] the maximum (or minimum) duration is
    returned. *)
Definition Sub (t u : Time) : Duration :=
  let d := t - u in
  if d <? minDuration then minDuration
  else if maxDuration <? d then maxDuration
  else d.

(** [lessThanHalf(x, y)]: [uint64(x)+uint64(x) < uint64(y)]. *)
Definition lessThanHalf (x y : Duration) : bool :=
  wrapU64 (wrapU64 x + wrapU64 x) <? wrapU64 y.

(** [func (d Duration) Round(m Duration) Duration]: the nearest
    multiple of [m], halfway values away from zero; the remainder [%]
    is Go's truncated one ([Z.rem]). *)
Definition Round (d m : Duration) : Duration :=
  if m <=? 0 then d
  else
    let r := Z.rem d m in
    if d <? 0 then
      let r := wrap64 (- r) in
      if lessThanHalf r m then wrap64 (d + r)
      else
        let d1 := wrap64 (wrap64 (d - m) + r) in
        if d1 <? d then d1 else minDuration
    else
      if lessThanHalf r m then wrap64 (d - r)
      else
        let d1 := wrap64 (wrap64 (d + m) - r) in
        if d <? d1 then d1 else maxDuration.

(** [func (d Duration) Hours() float64]: [d/Hour] plus
    [(d%Hour)/(60*60*1e9)].  The model is the exact quotient.  The
    program uses the result in three ways, and in each the [float64] and
    the exact quotient give the same outcome: it is compared with 0 (the
    sign is exact); it is divided by 168 and compared with 2 (336 hours
    and the quotient 2 are exact, and the operations are monotone); and,
    for a duration rounded to the hour, it is truncated to [int] or
    passed to the median (a whole number of hours, at most 2562047 in
    magnitude, is exact, and so is the half of a sum of two; the hours
    of a saturated duration have the fraction 0.788, which no
    floating-point error carries over a whole number). *)
Definition Hours (d : Duration) : Q := (inject_Z d / inject_Z Hour)%Q.

(** [int(f)] for a [float64] [f] within the range of [int]:
    truncation toward zero. *)
Definition intOfFloat (f : Q) : Z := Z.quot (Qnum f) (Z.pos (Qden f)).

End GoTime.

Import GoInt GoTime.

(** ** Program outcomes *)

(** Why a run ends without a value. *)
Inductive Failure : Type :=
  | FatalError      (* log.Fatal: the remote request returned an error *)
  | NilDereference  (* panic: a nil pointer was dereferenced *)
  | DivideByZero    (* panic: integer divide by zero *)
  | OutOfFuel.      (* the bounded unrolling of a [for] loop was too short *)

Inductive Outcome (A : Type) : Type :=
  | Returns (a : A)
  | Aborts (f : Failure).
Arguments Returns {A} a.
Arguments Aborts {A} f.

Global Instance Outcome_ret : MRet Outcome := fun A a => Returns a.
Global Instance Outcome_bind : MBind Outcome := fun A B k m =>
  match m with
  | Returns a => k a
  | Aborts f => Aborts f
  end.

(** [*p] for a pointer [p]. *)
Definition deref {A} (p : option A) : Outcome A :=
  match p with
  | Some a => Returns a
  | None => Aborts NilDereference
  end.

(** The [for _, x := range xs] loop that appends [f x] to a slice. *)
Fixpoint forEach {A B} (f : A -> Outcome B) (xs : list A) : Outcome (list B) :=
  match xs with
  | [] => Returns []
  | x :: rest => y ← f x; ys ← forEach f rest; Returns (y :: ys)
  end.

(** ** Package [sort] and the platform *)

Module GoSort.

(** One pass of the inner loop of [insertionSortLessFunc]: the new
    element [x] is swapped leftwards while it is less than its left
    neighbour.  [rp] is the sorted prefix, last element first. *)
Fixpoint bubble {A} (less : A -> A -> bool) (x : A) (rp : list A) : list A :=
  match rp with
  | [] => [x]
  | y :: r => if less x y then y :: bubble less x r else x :: y :: r
  end.

(** [insertionSortLessFunc], which is what [sort.Slice] runs on a slice
    of at most 12 elements. *)
Definition insertionSort {A} (less : A -> A -> bool) (l : list A) : list A :=
  rev (fold_left (fun rp x => bubble less x rp) l []).

End GoSort.

(** What the Go language leaves to the implementation: the algorithm of
    [sort.Slice] (not stable; insertion sort on short slices, pattern
    defeating quicksort on longer ones) and the result of converting a
    NaN to [int]. *)
Class GoRuntime : Type := {
  sortSlice : forall A : Type, (A -> A -> bool) -> list A -> list A;
  intOfNaN : Z
}.
Arguments sortSlice {_ A} less l.

(** The documented contract of [sort.Slice]: the slice is rearranged, and
    for a [less] that is a strict weak ordering no element is less than
    an element placed before it. *)
Record SortSliceSpec (rt : GoRuntime) : Prop := {
  sortSlice_perm : forall (A : Type) (less : A -> A -> bool) (l : list A),
    sortSlice less l ≡ₚ l;
  sortSlice_sorted : forall (A : Type) (less : A -> A -> bool) (l : list A),
    (forall x y, less x y = true -> less y x = false) ->
    (forall x y z, less x y = false -> less y z = false -> less x z = false) ->
    StronglySorted (fun a b => less b a = false) (sortSlice less l)
}.

(** The gc compiler on amd64, for slices of at most 12 elements:
    [int(NaN)] is the smallest [int], and [sort.Slice] runs
    [insertionSortLessFunc].  On a longer slice Go runs its pattern
    defeating quicksort, which may place elements that compare equal in
    another order; there this instance is only one of the sorts that
    meet [SortSliceSpec].  It serves in the examples, on timelines of at
    most three events; the properties are stated for every runtime, and
    those that read the order of the events for every runtime that meets
    [SortSliceSpec]. *)
Definition amd64 : GoRuntime := {|
  sortSlice := @GoSort.insertionSort;
  intOfNaN := minInt64
|}.

(** ** Package [github] (go-github v52): the fields the program reads *)

Module PullRequestBranch.
Record t : Type := { Label : option string }.
End PullRequestBranch.

Module PullRequest.
Record t : Type := {
  Number : option Z;
  State : option string;
  CreatedAt : option Time;
  MergedAt : option Time;
  Merged : option bool;
  MergeCommitSHA : option string;
  Head : option PullRequestBranch.t
}.
(** The generated accessors return the zero value on a nil field. *)
Definition GetState (p : t) : string := default EmptyString (State p).
Definition GetCreatedAt (p : t) : Time := default zeroTime (CreatedAt p).
Definition GetMergedAt (p : t) : Time := default zeroTime (MergedAt p).
Definition GetMerged (p : t) : bool := default false (Merged p).
Definition GetMergeCommitSHA (p : t) : string := default EmptyString (MergeCommitSHA p).
End PullRequest.

Module Timeline.
Record t : Type := {
  Event : option string;
  CreatedAt : option Time;
  SubmittedAt : option Time
}.
Definition GetEvent (e : t) : string := default EmptyString (Event e).
Definition GetCreatedAt (e : t) : Time := default zeroTime (CreatedAt e).
Definition GetSubmittedAt (e : t) : Time := default zeroTime (SubmittedAt e).
End Timeline.

Module Deployment.
Record t : Type := {
  SHA : option string;
  CreatedAt : option Time
}.
Definition GetSHA (d : t) : string := default EmptyString (SHA d).
Definition GetCreatedAt (d : t) : Time := default zeroTime (CreatedAt d).
End Deployment.

(** [github.Response]: [NextPage] is 0 on the last page. *)
Record Response : Type := { NextPage : nat }.

(** One paginated request: the answer to the request for page [page], or
    [None] when the request returns an error. *)
Definition Listing (A : Type) : Type := nat -> option (list A * Response).

(** [github.Client], as the program uses it.  [ListDeployments] is called
    once and its error is discarded, so it is the list it returns. *)
Record Client : Type := {
  PullRequests_List : Listing PullRequest.t;
  Issues_ListIssueTimeline : Z -> Listing Timeline.t;
  Repositories_ListDeployments : list Deployment.t
}.

(** The hosting platform's pagination over a source split in [pages]:
    page 0 (the unset option) and page 1 are the first page, and
    [NextPage] is the number of the following page, or 0 after the last. *)
Definition servePages {A} (pages : list (list A)) : Listing A := fun page =>
  let i := Nat.pred page in
  Some (nth i pages [], {| NextPage := if (S i <? length pages)%nat then S (S i) else 0%nat |}).

(** ** Package [strings] *)

(** [strings.Contains(s, substr)] *)
Fixpoint Contains (s substr : string) : bool :=
  if String.prefix substr s then true
  else match s with
       | EmptyString => false
       | String _ s' => Contains s' substr
       end.

(** ** Package [stats] (montanaflynn/stats) *)

Definition Qltb (x y : Q) : bool := negb (Qle_bool y x).

(** [stats.Median]: of a copy sorted in increasing order, the middle
    value, or the mean of the two middle values; [None] stands for the
    NaN returned (with [EmptyInputErr]) on empty input.  Whatever the
    sorting algorithm, the sorted copy holds the same values in the same
    places; insertion sort computes it here. *)
Definition Median (input : list Q) : option Q :=
  let c := GoSort.insertionSort Qltb input in
  let l := length c in
  if (l =? 0)%nat then None
  else if (l mod 2 =? 0)%nat then
    Some ((nth (l / 2 - 1) c 0 + nth (l / 2) c 0) / inject_Z 2)%Q
  else Some (nth (l / 2) c 0%Q).

(** ** [main.go] *)

Record Metrics : Type := {
  (* Time for pull request open (review requested) till first review *)
  AverageReviewTime : Z;
  MedianReviewTime : Z;
  (* Time for pull request open (review requested) till merge *)
  MedianTimeToMerge : Z;
  (* Time for pull request open (review requested) till in production *)
  MedianLeadTimeForChanges : Z;
  TotalPullRequests : Z;
  PullRequestsWithoutIssue : Z;
  PullRequestsWithReview : Z
}.

(** [weeksAgo := now.Sub(p.MergedAt.Time).Hours() / (24 * 7)] and the test
    [weeksAgo >= 2]. *)
Definition weeksAgo (now merged : Time) : Q :=
  (Hours (Sub now merged) / inject_Z (24 * 7))%Q.

(** The body of [for _, p := range pullRequests]: the accumulated slice,
    and whether the function returned from inside the loop. *)
Fixpoint scanPage (now : Time) (allPullRequests page : list PullRequest.t)
  : list PullRequest.t * bool :=
  match page with
  | [] => (allPullRequests, false)
  | p :: rest =>
      if IsZero (PullRequest.GetMergedAt p) then scanPage now allPullRequests rest
      else if Qle_bool (inject_Z 2) (weeksAgo now (PullRequest.GetMergedAt p))
           then (allPullRequests, true)
           else scanPage now (allPullRequests ++ [p]) rest
  end.

(** The [for] loop of [getPullRequestsFromLastTwoWeeks], unrolled at most
    [fuel] times.  Beside the outcome it yields the page numbers that
    were requested, in order. *)
Fixpoint selectLoop (fuel : nat) (request : Listing PullRequest.t) (now : Time)
    (page : nat) (allPullRequests : list PullRequest.t) (requested : list nat)
  : list nat * Outcome (list PullRequest.t) :=
  match fuel with
  | O => (requested, Aborts OutOfFuel)
  | S fuel' =>
      let requested := requested ++ [page] in
      match request page with
      | None => (requested, Aborts FatalError)
      | Some (pullRequests, resp) =>
          let '(acc, returned) := scanPage now allPullRequests pullRequests in
          if returned then (requested, Returns acc)
          else if (NextPage resp =? 0)%nat then (requested, Returns acc)
          else selectLoop fuel' request now (NextPage resp) acc requested
      end
  end.

(** [getPullRequestsFromLastTwoWeeks]; [now] is the value of
    [time.Now()]. *)
Definition getPullRequestsFromLastTwoWeeks (fuel : nat) (ghClient : Client) (now : Time)
  : list nat * Outcome (list PullRequest.t) :=
  selectLoop fuel (PullRequests_List ghClient) now 0%nat [] [].

(** ** [metrics.go] *)

Definition branchPrefixNoIssue : string := "noticket".
Definition eventReviewRequested : string := "review_requested".
Definition eventReviewed : string := "reviewed".
Definition pullRequestStateClosed : string := "closed".

Record pullRequestStatistics : Type := {
  (* Time from ready for review (defined as first review request) till first actual review *)
  TimeToReview : Duration;
  (* Time from review first requested till merged *)
  TimeToMerge : Duration;
  (* Time from review first requested and PR appearing in production *)
  TimeToProduction : Duration;
  IsTrackedWithIssue : bool;
  WasClosedWithoutMerge : bool;
  WasReviewed : bool;
  WasDeployed : bool
}.

(** [doesPullRequestHaveIssueAttached]: [*pr.Head.Label] panics when the
    head or its label is nil. *)
Definition doesPullRequestHaveIssueAttached (pr : PullRequest.t) : Outcome bool :=
  head ← deref (PullRequest.Head pr);
  branch ← deref (PullRequestBranch.Label head);
  let isTrackedWithIssue := negb (Contains branch branchPrefixNoIssue) in
  Returns isTrackedWithIssue.

(** The first loop of [getDeploymentTimesForSHA]. *)
Definition deploymentShas (deployments : list Deployment.t) : gmap string Time :=
  fold_left (fun m d => <[Deployment.GetSHA d := Deployment.GetCreatedAt d]> m)
            deployments ∅.

(** The body of its second loop, on the pair of [timeForThisDeployment]
    and [timeDeployment]. *)
Definition correlateStep (shas : gmap string Time)
    (st : Time * gmap string Time) (pr : PullRequest.t) : Time * gmap string Time :=
  let '(timeForThisDeployment, timeDeployment) := st in
  let sha := PullRequest.GetMergeCommitSHA pr in
  match shas !! sha with
  | Some value =>
      (* Do not save these, they will be deployed quickly *)
      (value, timeDeployment)
  | None =>
      (* Do not save times for undeployed pull requests *)
      if negb (IsZero timeForThisDeployment)
      then (timeForThisDeployment, <[sha := timeForThisDeployment]> timeDeployment)
      else (timeForThisDeployment, timeDeployment)
  end.

Definition correlateWalk (shas : gmap string Time) (pullRequests : list PullRequest.t)
  : Time * gmap string Time :=
  fold_left (correlateStep shas) pullRequests (zeroTime, ∅).

(** [getDeploymentTimesForSHA] *)
Definition getDeploymentTimesForSHA (deployments : list Deployment.t)
    (pullRequests : list PullRequest.t) : gmap string Time :=
  snd (correlateWalk (deploymentShas deployments) pullRequests).

(** The effective time the comparison function of [sort.Slice] gives an
    event: [GetCreatedAt], or [GetSubmittedAt] when that is zero. *)
Definition effectiveTime (e : Timeline.t) : Time :=
  let timeA := Timeline.GetCreatedAt e in
  if IsZero timeA then Timeline.GetSubmittedAt e else timeA.

(** The comparison function: [timeA.Sub(timeB).Hours() > 0]. *)
Definition lessTimeline (a b : Timeline.t) : bool :=
  Qltb 0 (Hours (Sub (effectiveTime a) (effectiveTime b))).

(** The [for] loop of [getAllTimelineEventsForPullRequest], unrolled at
    most [fuel] times. *)
Fixpoint timelineLoop (fuel : nat) (request : Listing Timeline.t) (page : nat)
    (allEvents : list Timeline.t) : Outcome (list Timeline.t) :=
  match fuel with
  | O => Aborts OutOfFuel
  | S fuel' =>
      match request page with
      | None => Aborts FatalError
      | Some (timeline, resp) =>
          let allEvents := allEvents ++ timeline in
          if (NextPage resp =? 0)%nat then Returns allEvents
          else timelineLoop fuel' request (NextPage resp) allEvents
      end
  end.

(** [getAllTimelineEventsForPullRequest] *)
Definition getAllTimelineEventsForPullRequest `{GoRuntime} (fuel : nat) (ghClient : Client)
    (pr : PullRequest.t) : Outcome (list Timeline.t) :=
  number ← deref (PullRequest.Number pr);
  allEvents ← timelineLoop fuel (Issues_ListIssueTimeline ghClient number) 0%nat [];
  (* Sort by time desc *)
  Returns (sortSlice lessTimeline allEvents).

(** The local variables of the scan in [processPullRequest]. *)
Record reviewScan : Type := {
  timeReviewRequested : Time;
  isFirstReview : bool;
  wasReviewed : bool;
  timeReviewed : Time
}.

(** The scan [for _, e := range timelineEvents]; it leaves the loop at the
    first reviewed event. *)
Fixpoint scanTimeline (timelineEvents : list Timeline.t) (st : reviewScan) : reviewScan :=
  match timelineEvents with
  | [] => st
  | e :: rest =>
      let st :=
        if isFirstReview st && String.eqb (Timeline.GetEvent e) eventReviewRequested
        then {| timeReviewRequested := Timeline.GetCreatedAt e;
                isFirstReview := false;
                wasReviewed := wasReviewed st;
                timeReviewed := timeReviewed st |}
        else st in
      if IsZero (timeReviewed st) && String.eqb (Timeline.GetEvent e) eventReviewed
      then {| timeReviewRequested := timeReviewRequested st;
              isFirstReview := isFirstReview st;
              wasReviewed := true;
              timeReviewed := Timeline.GetSubmittedAt e |}
      else scanTimeline rest st
  end.

(** The scan from its initial state: the request time defaults to the
    creation date of the pull request. *)
Definition reconstruct (pr : PullRequest.t) (timelineEvents : list Timeline.t) : reviewScan :=
  scanTimeline timelineEvents
    {| timeReviewRequested := PullRequest.GetCreatedAt pr;
       isFirstReview := true;
       wasReviewed := false;
       timeReviewed := zeroTime |}.

(** [processPullRequest] *)
Definition processPullRequest `{GoRuntime} (fuel : nat) (ghClient : Client)
    (pr : PullRequest.t) (deployTimesForPullRequests : gmap string Time)
  : Outcome pullRequestStatistics :=
  timelineEvents ← getAllTimelineEventsForPullRequest fuel ghClient pr;
  let st := reconstruct pr timelineEvents in
  let timeMerged := PullRequest.GetMergedAt pr in
  let timeDeployed :=
    match deployTimesForPullRequests !! PullRequest.GetMergeCommitSHA pr with
    | Some value => value
    | None => zeroTime
    end in
  isTracked ← doesPullRequestHaveIssueAttached pr;
  Returns {|
    IsTrackedWithIssue := isTracked;
    TimeToReview := Round (Sub (timeReviewed st) (timeReviewRequested st)) Hour;
    TimeToMerge := Round (Sub timeMerged (timeReviewRequested st)) Hour;
    TimeToProduction := Round (Sub timeDeployed (timeReviewRequested st)) Hour;
    WasClosedWithoutMerge :=
      String.eqb (PullRequest.GetState pr) pullRequestStateClosed
      && negb (PullRequest.GetMerged pr);
    WasReviewed := wasReviewed st;
    WasDeployed := negb (IsZero timeDeployed)
  |}.

(** The local variables of the aggregation loop of [AnalyzePullRequests]. *)
Record tally : Type := {
  untrackedPullRequests : Z;
  reviewedPullRequests : Z;
  deployedPullRequests : Z;
  reviewTime : list Q;
  timeToMerge : list Q;
  leadTimeForChanges : list Q;
  totalReviewTime : Z
}.

Definition tallyZero : tally := {|
  untrackedPullRequests := 0; reviewedPullRequests := 0; deployedPullRequests := 0;
  reviewTime := []; timeToMerge := []; leadTimeForChanges := [];
  totalReviewTime := 0
|}.

(** The body of [for _, stat := range prStats].  The counters count
    elements of a slice and stay below its length; the sum of hours is
    an [int] and wraps. *)
Definition tallyStep (a : tally) (stat : pullRequestStatistics) : tally :=
  let reviewed := WasReviewed stat in
  let deployed := WasDeployed stat in
  {| untrackedPullRequests :=
       if negb (IsTrackedWithIssue stat) then untrackedPullRequests a + 1
       else untrackedPullRequests a;
     reviewedPullRequests :=
       if reviewed then reviewedPullRequests a + 1 else reviewedPullRequests a;
     deployedPullRequests :=
       if deployed then deployedPullRequests a + 1 else deployedPullRequests a;
     reviewTime :=
       if reviewed then reviewTime a ++ [Hours (TimeToReview stat)] else reviewTime a;
     timeToMerge := timeToMerge a ++ [Hours (TimeToMerge stat)];
     leadTimeForChanges :=
       if deployed then leadTimeForChanges a ++ [Hours (TimeToProduction stat)]
       else leadTimeForChanges a;
     totalReviewTime :=
       if reviewed
       then wrap64 (totalReviewTime a + intOfFloat (Hours (TimeToReview stat)))
       else totalReviewTime a |}.

(** [int(median)] for the value [stats.Median] returned. *)
Definition intOfMedian `{GoRuntime} (median : option Q) : Z :=
  match median with
  | Some f => intOfFloat f
  | None => intOfNaN
  end.

(** [x / y] on [int]: a run-time panic when [y] is zero, else the
    quotient truncated toward zero. *)
Definition intDiv (x y : Z) : Outcome Z :=
  if y =? 0 then Aborts DivideByZero else Returns (wrap64 (Z.quot x y)).

(** The second half of [AnalyzePullRequests], from the aggregation loop
    to the returned [Metrics]; [numberOfPullRequests] is [len(prs)]. *)
Definition aggregate `{GoRuntime} (prStats : list pullRequestStatistics)
    (numberOfPullRequests : Z) : Outcome Metrics :=
  let a := fold_left tallyStep prStats tallyZero in
  let medianReviewTime := Median (reviewTime a) in
  let medianTimeToMerge := Median (timeToMerge a) in
  let medianLeadTimeForChanges := Median (leadTimeForChanges a) in
  average ← intDiv (totalReviewTime a) (reviewedPullRequests a);
  Returns {|
    AverageReviewTime := average;
    MedianReviewTime := intOfMedian medianReviewTime;
    MedianTimeToMerge := intOfMedian medianTimeToMerge;
    MedianLeadTimeForChanges := intOfMedian medianLeadTimeForChanges;
    TotalPullRequests := numberOfPullRequests;
    PullRequestsWithoutIssue := untrackedPullRequests a;
    PullRequestsWithReview := reviewedPullRequests a
  |}.

(** [AnalyzePullRequests]: performs analysis on the given pull requests
    and returns the calculated metrics. *)
Definition AnalyzePullRequests `{GoRuntime} (fuel : nat) (ghClient : Client)
    (prs : list PullRequest.t) : Outcome Metrics :=
  let deployments := Repositories_ListDeployments ghClient in
  let deployTimesForPullRequests := getDeploymentTimesForSHA deployments prs in
  prStats ← forEach (fun pr => processPullRequest fuel ghClient pr deployTimesForPullRequests) prs;
  aggregate prStats (Z.of_nat (length prs)).

(** ** Notions the properties are stated with *)

(** The timeline of [pr] is served by the platform from [pages]. *)
Definition timelineServed (ghClient : Client) (pr : PullRequest.t)
    (pages : list (list Timeline.t)) : Prop :=
  exists number, PullRequest.Number pr = Some number /\
    forall page, Issues_ListIssueTimeline ghClient number page = servePages pages page.

(** The head branch of [pr] carries a label. *)
Definition hasBranchLabel (pr : PullRequest.t) : Prop :=
  exists head label, PullRequest.Head pr = Some head /\
    PullRequestBranch.Label head = Some label.

(** [fuel] unrollings are enough to request every page of [pages]. *)
Definition fuelFor {A} (pages : list (list A)) (fuel : nat) : Prop :=
  (1 <= fuel /\ length pages <= fuel)%nat.

(** The most recent known deployment time once the walk has passed the
    pull requests [walked]: the value of [timeForThisDeployment]. *)
Definition knownDeploymentTime (shas : gmap string Time) (walked : list PullRequest.t) : Time :=
  fst (correlateWalk shas walked).

(** The two invariants of the walk: a stored time is not the zero time,
    and a stored key is not a commit of the deployment index. *)
Definition walkInv (shas : gmap string Time) (st : Time * gmap string Time) : Prop :=
  forall sha t, snd st !! sha = Some t -> IsZero t = false /\ shas !! sha = None.

(** The direct-match reading of the correlation: every pull request whose
    merge commit is the commit of a deployment is a key of the result,
    with that deployment's creation time. *)
Definition directMatchRecorded (deployments : list Deployment.t)
    (pullRequests : list PullRequest.t) : Prop :=
  forall pr d, pr ∈ pullRequests -> d ∈ deployments ->
    PullRequest.GetMergeCommitSHA pr = Deployment.GetSHA d ->
    getDeploymentTimesForSHA deployments pullRequests !! PullRequest.GetMergeCommitSHA pr
    = Some (Deployment.GetCreatedAt d).

(** The forward-fill reading of the correlation: a pull request whose
    merge commit matches no deployment is a key of the result exactly
    when a pull request before it in the walk is merged by the commit of
    a deployment. *)
Definition forwardFillAsStated (deployments : list Deployment.t)
    (pullRequests : list PullRequest.t) : Prop :=
  forall walked pr rest, pullRequests = walked ++ pr :: rest ->
    (forall d, d ∈ deployments -> Deployment.GetSHA d <> PullRequest.GetMergeCommitSHA pr) ->
    (is_Some (getDeploymentTimesForSHA deployments pullRequests
                !! PullRequest.GetMergeCommitSHA pr)
     <-> exists q d, q ∈ walked /\ d ∈ deployments /\
           Deployment.GetSHA d = PullRequest.GetMergeCommitSHA q).

(** The statistics [stat] with another value in its [TimeToReview]. *)
Definition withTimeToReview (d : Duration) (stat : pullRequestStatistics)
  : pullRequestStatistics := {|
  TimeToReview := d;
  TimeToMerge := TimeToMerge stat;
  TimeToProduction := TimeToProduction stat;
  IsTrackedWithIssue := IsTrackedWithIssue stat;
  WasClosedWithoutMerge := WasClosedWithoutMerge stat;
  WasReviewed := WasReviewed stat;
  WasDeployed := WasDeployed stat
|}.

(** The three kinds of timeline event of the reconstruction scenario: a
    review carries a submission time, a review request a creation time,
    a commit neither. *)
Definition reviewedAt (t : Time) : Timeline.t :=
  {| Timeline.Event := Some eventReviewed;
     Timeline.CreatedAt := None; Timeline.SubmittedAt := Some t |}.
Definition reviewRequestedAt (t : Time) : Timeline.t :=
  {| Timeline.Event := Some eventReviewRequested;
     Timeline.CreatedAt := Some t; Timeline.SubmittedAt := None |}.
Definition commitEvent : Timeline.t :=
  {| Timeline.Event := Some "committed"%string;
     Timeline.CreatedAt := None; Timeline.SubmittedAt := None |}.

(** The items of a batch the review metrics and the lead-time metric
    are computed over. *)
Definition reviewedStats (prStats : list pullRequestStatistics) : list pullRequestStatistics :=
  List.filter WasReviewed prStats.
Definition deployedStats (prStats : list pullRequestStatistics) : list pullRequestStatistics :=
  List.filter WasDeployed prStats.

(** [int(d.Hours())]: the whole hours of a duration. *)
Definition wholeHours (d : Duration) : Z := intOfFloat (Hours d).

(** The sum of a list of [int]s, accumulated as [total += h]. *)
Definition sumInt (hours : list Z) (start : Z) : Z :=
  fold_left (fun total h => wrap64 (total + h)) hours start.

(** The average of the specification: the sum divided by the count, as a
    rational. *)
Definition exactAverage (hours : list Q) : Q :=
  (fold_right Qplus 0 hours / inject_Z (Z.of_nat (length hours)))%Q.

(** The reading of the rounding placement that excludes any rounding or
    truncation at aggregation time: the reported average and the reported
    median of the review times are the exact average and median of the
    per-item hours. *)
Definition noRoundingAtAggregation (prStats : list pullRequestStatistics) : Prop :=
  forall (rt : GoRuntime) n m, aggregate prStats n = Returns m ->
    let hours := map (fun stat => Hours (TimeToReview stat)) (reviewedStats prStats) in
    (inject_Z (AverageReviewTime m) == exactAverage hours)%Q /\
    forall median, Median hours = Some median ->
      (inject_Z (MedianReviewTime m) == median)%Q.

(** [d] is the duration [raw] rounded to the nearest hour: the multiple
    of an hour at most half an hour from [raw], the one farther from zero
    when [raw] lies half-way between two; when that multiple is not a
    [Duration], [d] is the extreme duration on its side. *)
Definition nearestHourOf (raw d : Duration) : Prop :=
  exists k,
    2 * Z.abs (raw - k * Hour) <= Hour /\
    (2 * Z.abs (raw - k * Hour) = Hour -> Z.abs raw < Z.abs (k * Hour)) /\
    (d = k * Hour
     \/ (k * Hour < minDuration /\ d = minDuration)
     \/ (maxDuration < k * Hour /\ d = maxDuration)).

(** [d] is what [Round(time.Hour)] makes of the measured duration [raw],
    and that is [raw] rounded to the nearest hour. *)
Definition roundedToHour (raw d : Duration) : Prop :=
  d = Round raw Hour /\ nearestHourOf raw d.

(** The three durations of the statistics [stat] are the durations
    measured on the pull request [pr] with the timeline [events] and the
    deployment times [deployTimes], each rounded to the nearest hour: the
    time from the review request to the review, to the merge and to the
    deployment. *)
Definition roundedPerItem (deployTimes : gmap string Time) (pr : PullRequest.t)
    (events : list Timeline.t) (stat : pullRequestStatistics) : Prop :=
  let st := reconstruct pr events in
  let timeDeployed := default zeroTime (deployTimes !! PullRequest.GetMergeCommitSHA pr) in
  roundedToHour (Sub (timeReviewed st) (timeReviewRequested st)) (TimeToReview stat) /\
  roundedToHour (Sub (PullRequest.GetMergedAt pr) (timeReviewRequested st))
                (TimeToMerge stat) /\
  roundedToHour (Sub timeDeployed (timeReviewRequested st)) (TimeToProduction stat).

(** The window of the selector.  A pull request is merged within the
    window when it has a merge time and that time is later than the
    reference time less two weeks; a merged pull request that is not
    within the window is at or past its boundary. *)
Definition twoWeeks : Duration := 2 * (7 * 24 * Hour).
Definition hasMergeTime (p : PullRequest.t) : bool :=
  negb (IsZero (PullRequest.GetMergedAt p)).
Definition mergedWithinWindow (now : Time) (p : PullRequest.t) : bool :=
  hasMergeTime p && (now - twoWeeks <? PullRequest.GetMergedAt p).
Definition pastBoundary (now : Time) (p : PullRequest.t) : bool :=
  hasMergeTime p && (PullRequest.GetMergedAt p <=? now - twoWeeks).

(** The source lists the merged pull requests by merge recency, latest
    first. *)
Definition orderedByMergeRecency (prs : list PullRequest.t) : Prop :=
  StronglySorted (fun p q => PullRequest.GetMergedAt q <= PullRequest.GetMergedAt p)
                 (List.filter hasMergeTime prs).

(** The pull requests listed before the first one past the boundary. *)
Fixpoint beforeBoundary (now : Time) (prs : list PullRequest.t) : list PullRequest.t :=
  match prs with
  | [] => []
  | p :: rest => if pastBoundary now p then [] else p :: beforeBoundary now rest
  end.

(** The number of pages up to and including the first page that lists a
    pull request past the boundary (all the pages when there is none). *)
Fixpoint pagesToBoundary (now : Time) (pages : list (list PullRequest.t)) : nat :=
  match pages with
  | [] => 0
  | page :: rest =>
      if existsb (pastBoundary now) page then 1 else S (pagesToBoundary now rest)
  end.

(** The page numbers of [n] successive requests that start with the
    request for page [first]. *)
Definition pageNumbers (first n : nat) : list nat :=
  match n with
  | O => []
  | S k => first :: seq (Nat.pred first + 2) k
  end.

(** ** Sample data *)

Definition samplePR (number : Z) (sha label : string) (created merged : Time)
  : PullRequest.t := {|
  PullRequest.Number := Some number;
  PullRequest.State := Some pullRequestStateClosed;
  PullRequest.CreatedAt := Some created;
  PullRequest.MergedAt := Some merged;
  PullRequest.Merged := Some true;
  PullRequest.MergeCommitSHA := Some sha;
  PullRequest.Head := Some {| PullRequestBranch.Label := Some label |}
|}.

Definition sampleDeployment (sha : string) (created : Time) : Deployment.t :=
  {| Deployment.SHA := Some sha; Deployment.CreatedAt := Some created |}.

(** Three pull requests, newest merge first, and one deployment, of the
    commit of the second. *)
Definition PR3 : PullRequest.t := samplePR 3 "C3" "feature/JIRA-3" (180 * Hour) (430 * Hour).
Definition PR2 : PullRequest.t := samplePR 2 "C2" "feature/JIRA-2" (150 * Hour) (420 * Hour).
Definition PR1 : PullRequest.t := samplePR 1 "C1" "feature/noticket-fix" (100 * Hour) (410 * Hour).
Definition deployC2 : Deployment.t := sampleDeployment "C2" (425 * Hour).

(** A pull request merged after [PR3] by the merge commit of [PR1], and a
    deployment of the commit of [PR2] that carries no creation time. *)
Definition PR4 : PullRequest.t := samplePR 4 "C1" "feature/JIRA-4" (190 * Hour) (440 * Hour).
Definition deployC2Untimed : Deployment.t :=
  {| Deployment.SHA := Some "C2"%string; Deployment.CreatedAt := None |}.

(** A client that serves the timeline [timeline] for every pull request
    and lists the deployments [deployments]. *)
Definition sampleClient (pulls : list (list PullRequest.t))
    (timeline : list (list Timeline.t)) (deployments : list Deployment.t) : Client := {|
  PullRequests_List := servePages pulls;
  Issues_ListIssueTimeline := fun _ => servePages timeline;
  Repositories_ListDeployments := deployments
|}.

(** The timeline of the reconstruction scenario, on two pages: reviewed
    at hour 300, review requested at hour 200, and a commit. *)
Definition scenarioTimeline : list (list Timeline.t) :=
  [[reviewedAt (300 * Hour)]; [reviewRequestedAt (200 * Hour); commitEvent]].

(** A pull request created at hour 100 and merged at hour 400. *)
Definition scenarioPR : PullRequest.t :=
  samplePR 7 "C7" "feature/JIRA-7" (100 * Hour) (400 * Hour).

(** Reviewed statistics with the given time to review. *)
Definition reviewedIn (timeToReview : Duration) : pullRequestStatistics := {|
  TimeToReview := timeToReview;
  TimeToMerge := 10 * Hour;
  TimeToProduction := 0;
  IsTrackedWithIssue := true;
  WasClosedWithoutMerge := false;
  WasReviewed := true;
  WasDeployed := false
|}.

(** Closed pull requests on three pages, latest merge first; the second
    page crosses the boundary of the window that ends at hour 600. *)
Definition closedPulls : list (list PullRequest.t) :=
  [ [ samplePR 15 "C15" "feature/JIRA-15" (500 * Hour) (590 * Hour);
      {| PullRequest.Number := Some 14; PullRequest.State := Some pullRequestStateClosed;
         PullRequest.CreatedAt := Some (480 * Hour); PullRequest.MergedAt := None;
         PullRequest.Merged := Some false; PullRequest.MergeCommitSHA := None;
         PullRequest.Head := Some {| PullRequestBranch.Label := Some "feature/JIRA-14"%string |} |};
      samplePR 13 "C13" "feature/JIRA-13" (300 * Hour) (400 * Hour) ];
    [ samplePR 12 "C12" "feature/JIRA-12" (250 * Hour) (265 * Hour);
      samplePR 11 "C11" "feature/JIRA-11" (200 * Hour) (264 * Hour);
      samplePR 10 "C10" "feature/JIRA-10" (100 * Hour) (150 * Hour) ];
    [ samplePR 9 "C9" "feature/JIRA-9" (50 * Hour) (90 * Hour) ] ].

(** ** The rest of the program *)

(** [Repository] of [main.go]. *)
Record Repository : Type := { owner : string; name : string }.

(** [getRepoToStudy]; the arguments are the values of the flags [-owner]
    and [-repo] after [flag.Parse()]. *)
Definition getRepoToStudy (ownerName repoName : string) : Outcome Repository :=
  if String.eqb ownerName "" || String.eqb repoName ""
  then Aborts FatalError
  else Returns {| owner := ownerName; name := repoName |}.

(** [main] of [main.go], up to the printing of the metrics it returns
    here.  [envLoaded] tells whether [godotenv.Load()] succeeded, and
    [github owner repo] is what the authenticated client answers for that
    repository. *)
Definition main `{GoRuntime} (envLoaded : bool) (ownerFlag repoFlag : string)
    (github : string -> string -> Client) (fuel : nat) (now : Time) : Outcome Metrics :=
  if negb envLoaded then Aborts FatalError
  else
    repo ← getRepoToStudy ownerFlag repoFlag;
    let ghClient := github (owner repo) (name repo) in
    pullRequests ← snd (getPullRequestsFromLastTwoWeeks fuel ghClient now);
    metrics ← AnalyzePullRequests fuel ghClient pullRequests;
    Returns metrics.

(** The body of the second loop of [getDeploymentTimesForSHA] in the
    earlier revision held in [src/metrics.go] (its lines 142 to 162):
    every pull request is saved, with the time known after it. *)
Definition correlateStepV1 (shas : gmap string Time)
    (st : Time * gmap string Time) (pr : PullRequest.t) : Time * gmap string Time :=
  let '(timeForThisDeployment, timeDeployment) := st in
  let sha := PullRequest.GetMergeCommitSHA pr in
  let timeForThisDeployment :=
    match shas !! sha with
    | Some value => value
    | None => timeForThisDeployment
    end in
  (timeForThisDeployment, <[sha := timeForThisDeployment]> timeDeployment).

(** [getDeploymentTimesForSHA] of the earlier revision. *)
Definition getDeploymentTimesForSHA_v1 (deployments : list Deployment.t)
    (pullRequests : list PullRequest.t) : gmap string Time :=
  snd (fold_left (correlateStepV1 (deploymentShas deployments)) pullRequests (zeroTime, ∅)).

(** ** Further notions *)

(** The two kinds of event the scan looks for. *)
Definition isReviewed (e : Timeline.t) : bool :=
  String.eqb (Timeline.GetEvent e) eventReviewed.
Definition isReviewRequested (e : Timeline.t) : bool :=
  String.eqb (Timeline.GetEvent e) eventReviewRequested.

(** The events listed before the first reviewed event. *)
Fixpoint beforeFirstReview (events : list Timeline.t) : list Timeline.t :=
  match events with
  | [] => []
  | e :: rest => if isReviewed e then [] else e :: beforeFirstReview rest
  end.

(** Two statistics agree on what the aggregation reads: the flags, the
    time to merge, the time to review of a reviewed item and the time to
    production of a deployed item. *)
Definition sameForAggregation (s1 s2 : pullRequestStatistics) : Prop :=
  IsTrackedWithIssue s1 = IsTrackedWithIssue s2 /\
  WasReviewed s1 = WasReviewed s2 /\
  WasDeployed s1 = WasDeployed s2 /\
  TimeToMerge s1 = TimeToMerge s2 /\
  (WasReviewed s1 = true -> TimeToReview s1 = TimeToReview s2) /\
  (WasDeployed s1 = true -> TimeToProduction s1 = TimeToProduction s2).

(** A client that serves the closed pull requests of [closedPulls] but
    fails on every page after the second. *)
Definition failingClient : Client := {|
  PullRequests_List := fun page =>
    if (page <? 3)%nat then servePages closedPulls page else None;
  Issues_ListIssueTimeline := fun _ => servePages scenarioTimeline;
  Repositories_ListDeployments := []
|}.

(** A client whose timeline responses always name a next page. *)
Definition endlessClient : Client := {|
  PullRequests_List := servePages [];
  Issues_ListIssueTimeline := fun _ page => Some ([commitEvent], {| NextPage := S page |});
  Repositories_ListDeployments := []
|}.

(** * Properties *)

(** ** The model on small inputs *)

Example Round_down : Round (5 * Hour + 1799 * Second) Hour = 5 * Hour.
Proof. reflexivity. Qed.

Example Round_half_up : Round (5 * Hour + 1800 * Second) Hour = 6 * Hour.
Proof. reflexivity. Qed.

Example Round_half_away_from_zero :
  Round (- (5 * Hour + 1800 * Second)) Hour = - (6 * Hour).
Proof. reflexivity. Qed.

Example Round_saturates : Round minDuration Hour = minDuration.
Proof. reflexivity. Qed.

(** A date of the year 2023 is more than the longest duration after the
    zero time: the difference saturates, and stays saturated when
    rounded. *)
Example Sub_zero_time_saturates :
  Round (Sub zeroTime (738640 * 24 * Hour)) Hour = minDuration.
Proof. reflexivity. Qed.

Example Median_single : Median [Hours (7 * Hour)] = Some (Hours (7 * Hour)).
Proof. reflexivity. Qed.

Example Median_pair :
  intOfFloat <$> Median [Hours (4 * Hour); Hours (2 * Hour)] = Some 3.
Proof. reflexivity. Qed.

Example branch_untracked : Contains "feature/noticket-fix" branchPrefixNoIssue = true.
Proof. reflexivity. Qed.

Example branch_tracked : Contains "feature/JIRA-123" branchPrefixNoIssue = false.
Proof. reflexivity. Qed.

(** The scenario of the specification for the correlator: only PR1, which
    follows the deployed PR2 in the walk, is in the mapping. *)
Example correlation_scenario :
  getDeploymentTimesForSHA [deployC2] [PR3; PR2; PR1] = {[ "C1"%string := 425 * Hour ]}.
Proof. apply map_eq. intros sha. vm_compute. reflexivity. Qed.

(** ** Integer and time arithmetic *)

(** Exposes the bounds of [int64] as numerals, for [lia]. *)
Ltac int64_bounds :=
  unfold inInt64, wrap64, wrapU64, minDuration, maxDuration, minInt64, maxInt64 in *;
  change (2 ^ 63) with 9223372036854775808 in *;
  change (2 ^ 64) with 18446744073709551616 in *.

Lemma wrap64_id z : inInt64 z -> wrap64 z = z.
Proof. intros Hz. int64_bounds. rewrite Z.mod_small; lia. Qed.

Lemma wrap64_inInt64 z : inInt64 (wrap64 z).
Proof. int64_bounds. Z.to_euclidean_division_equations. lia. Qed.

Lemma Sub_inInt64 t u : inInt64 (Sub t u).
Proof. unfold Sub. int64_bounds. repeat case_match; lia. Qed.

Lemma Sub_pos t u : 0 < Sub t u <-> u < t.
Proof. unfold Sub. int64_bounds. repeat case_match; lia. Qed.

(** Saturation does not change how a difference compares with a bound
    that is itself a duration. *)
Lemma Sub_le_bound t u b :
  minDuration < b <= maxDuration -> b <= Sub t u <-> b <= t - u.
Proof. intros Hb. unfold Sub. int64_bounds. repeat case_match; lia. Qed.

Lemma Hours_eq d : Hours d = (d * 1 # 3600000000000).
Proof. reflexivity. Qed.

Lemma Hours_pos d : Qltb 0 (Hours d) = (0 <? d).
Proof.
  rewrite Hours_eq. unfold Qltb, Qle_bool. simpl Qnum. simpl Qden.
  destruct (Z.ltb_spec 0 d), (Z.leb_spec (d * 1 * 1) (0 * 3600000000000)); simpl; lia.
Qed.

Lemma weeksAgo_eq now merged :
  weeksAgo now merged = (Sub now merged * 1 * 1 # 3600000000000 * 168).
Proof. reflexivity. Qed.

(** The floating-point test [weeksAgo >= 2] is the integer test that the
    age is at least two weeks. *)
Lemma weeksAgo_test now merged :
  Qle_bool (inject_Z 2) (weeksAgo now merged) = (2 * (7 * 24 * Hour) <=? Sub now merged).
Proof.
  rewrite weeksAgo_eq. unfold Qle_bool. simpl Qnum. simpl Qden.
  generalize (Sub now merged). intros d.
  change (2 * (7 * 24 * Hour)) with 1209600000000000.
  destruct (Z.leb_spec 1209600000000000 d),
           (Z.leb_spec (2 * Z.pos (3600000000000 * 168)) (d * 1 * 1 * 1)); simpl; lia.
Qed.

(** The comparison function of the timeline sort orders by effective
    time, later first. *)
Lemma lessTimeline_spec a b :
  lessTimeline a b = (effectiveTime b <? effectiveTime a).
Proof.
  unfold lessTimeline. rewrite Hours_pos.
  pose proof (Sub_pos (effectiveTime a) (effectiveTime b)) as Hs.
  destruct (Z.ltb_spec 0 (Sub (effectiveTime a) (effectiveTime b))),
           (Z.ltb_spec (effectiveTime b) (effectiveTime a)); lia.
Qed.

Lemma lessTimeline_asym x y : lessTimeline x y = true -> lessTimeline y x = false.
Proof. rewrite !lessTimeline_spec. lia. Qed.

Lemma lessTimeline_negtrans x y z :
  lessTimeline x y = false -> lessTimeline y z = false -> lessTimeline x z = false.
Proof. rewrite !lessTimeline_spec. lia. Qed.

(** ** Insertion sort meets the contract of [sort.Slice] *)

Section InsertionSort.
Context {A : Type} (less : A -> A -> bool).

Lemma bubble_perm x rp : GoSort.bubble less x rp ≡ₚ x :: rp.
Proof.
  induction rp as [|y r IH]; simpl; [done|].
  destruct (less x y); [|done].
  rewrite IH. apply Permutation_swap.
Qed.

Lemma insertionSort_perm l : GoSort.insertionSort less l ≡ₚ l.
Proof.
  unfold GoSort.insertionSort.
  rewrite <- Permutation_rev.
  assert (forall acc, fold_left (fun rp x => GoSort.bubble less x rp) l acc ≡ₚ l ++ acc) as H.
  { induction l as [|x l IH]; intros acc; simpl; [done|].
    rewrite IH, bubble_perm. by rewrite Permutation_middle. }
  rewrite H. by rewrite app_nil_r.
Qed.

Hypothesis less_asym : forall x y, less x y = true -> less y x = false.
Hypothesis less_negtrans :
  forall x y z, less x y = false -> less y z = false -> less x z = false.

Lemma bubble_sorted x rp :
  StronglySorted (fun b a => less b a = false) rp ->
  StronglySorted (fun b a => less b a = false) (GoSort.bubble less x rp).
Proof.
  induction 1 as [|y r Hr IH Hy]; simpl.
  - repeat constructor.
  - destruct (less x y) eqn:Hxy.
    + constructor; [exact IH|].
      rewrite bubble_perm. constructor; [by apply less_asym | exact Hy].
    + constructor; [by constructor|].
      constructor; [exact Hxy|].
      eapply Forall_impl; [exact Hy|]. intros z Hz. simpl in *. eauto.
Qed.

Lemma StronglySorted_rev_flip (R : A -> A -> Prop) l :
  StronglySorted R l -> StronglySorted (fun a b => R b a) (rev l).
Proof.
  induction 1 as [|x l Hl IH Hx]; simpl; [constructor|].
  apply StronglySorted_app_2; [|exact IH|repeat constructor].
  intros a b Ha Hb. apply list_elem_of_singleton in Hb as ->.
  rewrite Forall_forall in Hx. apply Hx.
  apply list_elem_of_In, in_rev, list_elem_of_In. exact Ha.
Qed.

Lemma insertionSort_sorted l :
  StronglySorted (fun a b => less b a = false) (GoSort.insertionSort less l).
Proof.
  unfold GoSort.insertionSort. apply StronglySorted_rev_flip.
  assert (forall acc, StronglySorted (fun b a => less b a = false) acc ->
            StronglySorted (fun b a => less b a = false)
              (fold_left (fun rp x => GoSort.bubble less x rp) l acc)) as H.
  { induction l as [|x l IH]; intros acc Hacc; simpl; [done|].
    apply IH, bubble_sorted, Hacc. }
  apply H. constructor.
Qed.

End InsertionSort.

Lemma amd64_sortSlice : SortSliceSpec amd64.
Proof.
  split; intros A less l; simpl.
  - apply insertionSort_perm.
  - intros Hasym Hneg. by apply insertionSort_sorted.
Qed.

(** ** The deployment correlator *)

Lemma deploymentShas_lookup_from deployments (m : gmap string Time) sha t :
  fold_left (fun m d => <[Deployment.GetSHA d := Deployment.GetCreatedAt d]> m)
            deployments m !! sha = Some t ->
  m !! sha = Some t \/
  exists d, d ∈ deployments /\ Deployment.GetSHA d = sha /\ Deployment.GetCreatedAt d = t.
Proof.
  revert m. induction deployments as [|d ds IH]; intros m; simpl; [by left|].
  intros H. apply IH in H as [H|(d' & Hin & Hsha & Ht)].
  - destruct (decide (Deployment.GetSHA d = sha)) as [<-|Hne].
    + rewrite lookup_insert_eq in H. right. exists d. split; [left|]. naive_solver.
    + rewrite lookup_insert_ne in H by done. by left.
  - right. exists d'. split; [by right|done].
Qed.

(** An entry of the index is the creation time of a listed deployment of
    that commit. *)
Lemma deploymentShas_lookup deployments sha t :
  deploymentShas deployments !! sha = Some t ->
  exists d, d ∈ deployments /\ Deployment.GetSHA d = sha /\ Deployment.GetCreatedAt d = t.
Proof.
  intros H. apply deploymentShas_lookup_from in H as [H|H]; [|done].
  by rewrite lookup_empty in H.
Qed.

Lemma deploymentShas_member_from deployments (m : gmap string Time) sha :
  (is_Some (m !! sha) \/ exists d, d ∈ deployments /\ Deployment.GetSHA d = sha) ->
  is_Some (fold_left (fun m d => <[Deployment.GetSHA d := Deployment.GetCreatedAt d]> m)
             deployments m !! sha).
Proof.
  revert m. induction deployments as [|d ds IH]; intros m; simpl.
  - intros [H|(d & Hin & _)]; [done|]. by apply not_elem_of_nil in Hin.
  - intros H. apply IH.
    destruct (decide (Deployment.GetSHA d = sha)) as [<-|Hne].
    + left. rewrite lookup_insert_eq. by eexists.
    + rewrite lookup_insert_ne by done.
      destruct H as [H|(d' & Hin & Hsha)]; [by left|].
      apply elem_of_cons in Hin as [->|Hin]; [done|]. right. by exists d'.
Qed.

(** Every listed deployment's commit is in the index. *)
Lemma deploymentShas_member deployments d :
  d ∈ deployments -> is_Some (deploymentShas deployments !! Deployment.GetSHA d).
Proof. intros H. apply deploymentShas_member_from. right. by exists d. Qed.

Section Walk.
Context (shas : gmap string Time).

Lemma correlateWalk_snoc walked pr :
  correlateWalk shas (walked ++ [pr]) = correlateStep shas (correlateWalk shas walked) pr.
Proof. unfold correlateWalk. by rewrite fold_left_app. Qed.

Lemma correlateWalk_app walked rest :
  correlateWalk shas (walked ++ rest)
  = fold_left (correlateStep shas) rest (correlateWalk shas walked).
Proof. unfold correlateWalk. by rewrite fold_left_app. Qed.

Lemma correlateStep_inv st pr :
  walkInv shas st -> walkInv shas (correlateStep shas st pr).
Proof.
  destruct st as [cur m]. unfold walkInv, correlateStep. simpl. intros Hinv sha t.
  destruct (shas !! PullRequest.GetMergeCommitSHA pr) eqn:Hsha; simpl; [by apply Hinv|].
  destruct (IsZero cur) eqn:Hz; simpl; [by apply Hinv|].
  destruct (decide (PullRequest.GetMergeCommitSHA pr = sha)) as [<-|Hne].
  - rewrite lookup_insert_eq. intros [= <-]. by split.
  - rewrite lookup_insert_ne by done. apply Hinv.
Qed.

Lemma fold_correlateStep_inv prs st :
  walkInv shas st -> walkInv shas (fold_left (correlateStep shas) prs st).
Proof.
  revert st. induction prs as [|pr prs IH]; intros st Hst; simpl; [done|].
  by apply IH, correlateStep_inv.
Qed.

Lemma correlateWalk_inv prs : walkInv shas (correlateWalk shas prs).
Proof.
  apply fold_correlateStep_inv. intros sha t. simpl. by rewrite lookup_empty.
Qed.

(** The walk writes only under the merge commits it passes. *)
Lemma fold_correlateStep_other prs st sha :
  sha ∉ (PullRequest.GetMergeCommitSHA <$> prs) ->
  snd (fold_left (correlateStep shas) prs st) !! sha = snd st !! sha.
Proof.
  revert st. induction prs as [|pr prs IH]; intros st Hnot; simpl; [done|].
  rewrite fmap_cons, not_elem_of_cons in Hnot. destruct Hnot as [Hne Hnot].
  rewrite IH by done. destruct st as [cur m]. unfold correlateStep.
  repeat case_match; simpl; try done. by rewrite lookup_insert_ne.
Qed.

(** While no pull request matches a deployment, nothing is known and
    nothing is stored. *)
Lemma correlateWalk_unmatched walked :
  (forall q, q ∈ walked -> shas !! PullRequest.GetMergeCommitSHA q = None) ->
  correlateWalk shas walked = (zeroTime, ∅).
Proof.
  induction walked as [|q walked IH] using rev_ind; intros H; [done|].
  rewrite correlateWalk_snoc, IH.
  - unfold correlateStep. rewrite H; [done|]. apply elem_of_app. right. by left.
  - intros q' Hq'. apply H, elem_of_app. by left.
Qed.

(** A known deployment time is the indexed time of the last pull request
    passed that matched a deployment. *)
Lemma knownDeploymentTime_last_match walked :
  IsZero (knownDeploymentTime shas walked) = false ->
  exists before q after, walked = before ++ q :: after /\
    shas !! PullRequest.GetMergeCommitSHA q = Some (knownDeploymentTime shas walked) /\
    forall q', q' ∈ after -> shas !! PullRequest.GetMergeCommitSHA q' = None.
Proof.
  unfold knownDeploymentTime.
  induction walked as [|q walked IH] using rev_ind; [done|].
  rewrite correlateWalk_snoc.
  destruct (correlateWalk shas walked) as [cur m] eqn:Hw. simpl in IH.
  unfold correlateStep.
  destruct (shas !! PullRequest.GetMergeCommitSHA q) as [value|] eqn:Hsha; simpl.
  - intros _. exists walked, q, []. split; [done|]. split; [done|].
    intros q' Hq'. by apply not_elem_of_nil in Hq'.
  - assert (forall c, fst (if negb (IsZero cur)
                            then (cur, <[PullRequest.GetMergeCommitSHA q:=cur]> m)
                            else (cur, m)) = c -> c = cur) as Hfst
      by (intros c <-; by destruct (IsZero cur)).
    rewrite (Hfst _ eq_refl). intros Hz.
    destruct (IH Hz) as (before & q0 & after & -> & Hq0 & Hafter).
    exists before, q0, (after ++ [q]). split; [by rewrite <- app_assoc|].
    split; [done|]. intros q' Hq'. apply elem_of_app in Hq' as [Hq'|Hq']; [by apply Hafter|].
    apply list_elem_of_singleton in Hq' as ->. done.
Qed.

(** The forward fill: once a pull request has matched a deployment, the
    indexed time of that deployment stays the known time while the pull
    requests passed match no deployment, however many they are. *)
Lemma knownDeploymentTime_after_match before q after t :
  shas !! PullRequest.GetMergeCommitSHA q = Some t ->
  (forall q', q' ∈ after -> shas !! PullRequest.GetMergeCommitSHA q' = None) ->
  knownDeploymentTime shas (before ++ q :: after) = t.
Proof.
  intros Hq. unfold knownDeploymentTime.
  induction after as [|x after IH] using rev_ind; intros Hafter.
  - rewrite correlateWalk_snoc.
    destruct (correlateWalk shas before) as [cur m].
    unfold correlateStep. by rewrite Hq.
  - replace (before ++ q :: after ++ [x]) with ((before ++ q :: after) ++ [x])
      by (by rewrite <- app_assoc).
    rewrite correlateWalk_snoc.
    assert (fst (correlateWalk shas (before ++ q :: after)) = t) as Hknown.
    { apply IH. intros q' Hq'. apply Hafter, elem_of_app. by left. }
    destruct (correlateWalk shas (before ++ q :: after)) as [cur m]. simpl in Hknown.
    unfold correlateStep. rewrite (Hafter x) by (apply elem_of_app; right; by left).
    by destruct (IsZero cur).
Qed.

End Walk.

Lemma deploymentShas_None deployments sha :
  deploymentShas deployments !! sha = None <->
  forall d, d ∈ deployments -> Deployment.GetSHA d <> sha.
Proof.
  split.
  - intros Hnone d Hd Hsha. destruct (deploymentShas_member deployments d Hd) as [t Ht].
    rewrite Hsha in Ht. congruence.
  - intros H. destruct (deploymentShas deployments !! sha) as [t|] eqn:Ht; [|done].
    apply deploymentShas_lookup in Ht as (d & Hd & Hsha & _). by destruct (H d Hd).
Qed.

(** The result of the correlator satisfies the invariants of the walk. *)
Lemma getDeploymentTimesForSHA_inv deployments pullRequests sha t :
  getDeploymentTimesForSHA deployments pullRequests !! sha = Some t ->
  IsZero t = false /\ deploymentShas deployments !! sha = None.
Proof. apply (correlateWalk_inv (deploymentShas deployments) pullRequests). Qed.

(** C1, as the code has it.  A pull request whose merge commit is the
    commit of a deployment is not saved: its merge-commit SHA is not a key
    of the mapping returned.  Passing it only makes the creation time of a
    listed deployment of that commit the most recent known deployment
    time of the walk. *)
Theorem direct_match_not_saved deployments pullRequests pr d :
  pr ∈ pullRequests -> d ∈ deployments ->
  PullRequest.GetMergeCommitSHA pr = Deployment.GetSHA d ->
  getDeploymentTimesForSHA deployments pullRequests !! PullRequest.GetMergeCommitSHA pr = None
  /\ forall walked rest, pullRequests = walked ++ pr :: rest ->
       exists d', d' ∈ deployments /\ Deployment.GetSHA d' = Deployment.GetSHA d /\
         knownDeploymentTime (deploymentShas deployments) (walked ++ [pr])
         = Deployment.GetCreatedAt d'.
Proof.
  intros Hpr Hd Hsha.
  destruct (deploymentShas_member deployments d Hd) as [value Hvalue].
  split.
  - destruct (getDeploymentTimesForSHA deployments pullRequests
                !! PullRequest.GetMergeCommitSHA pr) as [t|] eqn:Ht; [|done].
    apply getDeploymentTimesForSHA_inv in Ht as [_ Ht]. congruence.
  - intros walked rest _. unfold knownDeploymentTime.
    rewrite correlateWalk_snoc.
    destruct (correlateWalk (deploymentShas deployments) walked) as [cur m].
    unfold correlateStep. rewrite Hsha, Hvalue. simpl.
    apply deploymentShas_lookup in Hvalue as (d' & Hd' & Hsha' & Ht'). by exists d'.
Qed.

Lemma direct_match_not_saved_witness :
  getDeploymentTimesForSHA [deployC2] [PR3; PR2; PR1] !! PullRequest.GetMergeCommitSHA PR2 = None
  /\ forall walked rest, [PR3; PR2; PR1] = walked ++ PR2 :: rest ->
       exists d', d' ∈ [deployC2] /\ Deployment.GetSHA d' = Deployment.GetSHA deployC2 /\
         knownDeploymentTime (deploymentShas [deployC2]) (walked ++ [PR2])
         = Deployment.GetCreatedAt d'.
Proof.
  apply (direct_match_not_saved [deployC2] [PR3; PR2; PR1] PR2 deployC2).
  - apply list_elem_of_further, list_elem_of_here.
  - apply list_elem_of_here.
  - reflexivity.
Defined.

(** C1 as stated fails on the scenario of the specification: PR2 is merged
    by the deployed commit C2, and C2 is not a key of the result. *)
Lemma direct_match_counterexample : ~ directMatchRecorded [deployC2] [PR3; PR2; PR1].
Proof.
  intros H. specialize (H PR2 deployC2).
  assert (getDeploymentTimesForSHA [deployC2] [PR3; PR2; PR1] !! "C2"%string = None) as Hnone
    by (vm_compute; reflexivity).
  change (PullRequest.GetMergeCommitSHA PR2) with "C2"%string in H.
  rewrite Hnone in H. discriminate H.
  - apply list_elem_of_further, list_elem_of_here.
  - apply list_elem_of_here.
  - reflexivity.
Qed.

(** Every entry of the mapping was written when the walk passed a pull
    request of that merge commit that matches no deployment, at a moment
    a deployment time was known, and holds that time. *)
Lemma correlation_entries_forward_filled deployments pullRequests sha t :
  getDeploymentTimesForSHA deployments pullRequests !! sha = Some t ->
  exists walked pr rest,
    pullRequests = walked ++ pr :: rest /\
    PullRequest.GetMergeCommitSHA pr = sha /\
    (forall d, d ∈ deployments -> Deployment.GetSHA d <> sha) /\
    knownDeploymentTime (deploymentShas deployments) walked = t /\
    IsZero t = false.
Proof.
  unfold getDeploymentTimesForSHA, knownDeploymentTime.
  set (shas := deploymentShas deployments).
  induction pullRequests as [|q prs IH] using rev_ind.
  - simpl. by rewrite lookup_empty.
  - rewrite correlateWalk_snoc.
    destruct (correlateWalk shas prs) as [cur m] eqn:Hw. simpl in IH.
    assert (m !! sha = Some t ->
            exists walked pr rest,
              prs ++ [q] = walked ++ pr :: rest /\
              PullRequest.GetMergeCommitSHA pr = sha /\
              (forall d, d ∈ deployments -> Deployment.GetSHA d <> sha) /\
              fst (correlateWalk shas walked) = t /\ IsZero t = false) as Hold.
    { intros Hm. destruct (IH Hm) as (walked & pr & rest & -> & Hrest).
      exists walked, pr, (rest ++ [q]). by rewrite <- app_assoc. }
    unfold correlateStep.
    destruct (shas !! PullRequest.GetMergeCommitSHA q) eqn:Hq; simpl; [exact Hold|].
    destruct (IsZero cur) eqn:Hz; simpl; [exact Hold|].
    destruct (decide (PullRequest.GetMergeCommitSHA q = sha)) as [<-|Hne].
    + rewrite lookup_insert_eq. intros [= <-].
      exists prs, q, []. rewrite Hw. simpl. repeat split; try done.
      by apply deploymentShas_None.
    + by rewrite lookup_insert_ne.
Qed.

(** C4, as the code has it.  Walking the pull requests in the given
    order, let [pr] be one whose merge commit matches no deployment and is
    not the merge commit of a pull request later in the walk.

    - Forward fill: when a pull request [q] before [pr] is merged by the
      commit of a deployment, the index holds the time [t] for that
      commit, and no pull request between [q] and [pr] matches a
      deployment, then [t] is the most recent known deployment time when
      the walk reaches [pr], however many pull requests lie in between,
      and [pr] is mapped to [t] exactly when [t] is not the zero time.
    - Exclusion: when no pull request before [pr] matches a deployment,
      [pr] is absent from the mapping.
    - Only if: when [pr] is mapped to a time, that time is not the zero
      time and is the creation time of a deployment of the commit of a
      pull request before [pr]. *)
Theorem forward_fill deployments walked pr rest :
  (forall d, d ∈ deployments -> Deployment.GetSHA d <> PullRequest.GetMergeCommitSHA pr) ->
  PullRequest.GetMergeCommitSHA pr ∉ (PullRequest.GetMergeCommitSHA <$> rest) ->
  (forall before q after t,
      walked = before ++ q :: after ->
      deploymentShas deployments !! PullRequest.GetMergeCommitSHA q = Some t ->
      (forall q' d', q' ∈ after -> d' ∈ deployments ->
         Deployment.GetSHA d' <> PullRequest.GetMergeCommitSHA q') ->
      knownDeploymentTime (deploymentShas deployments) walked = t
      /\ (getDeploymentTimesForSHA deployments (walked ++ pr :: rest)
            !! PullRequest.GetMergeCommitSHA pr = Some t
          <-> IsZero t = false))
  /\ ((forall q d, q ∈ walked -> d ∈ deployments ->
         Deployment.GetSHA d <> PullRequest.GetMergeCommitSHA q) ->
      getDeploymentTimesForSHA deployments (walked ++ pr :: rest)
        !! PullRequest.GetMergeCommitSHA pr = None)
  /\ (forall t,
        getDeploymentTimesForSHA deployments (walked ++ pr :: rest)
          !! PullRequest.GetMergeCommitSHA pr = Some t ->
        IsZero t = false /\
        exists q d, q ∈ walked /\ d ∈ deployments /\
          Deployment.GetSHA d = PullRequest.GetMergeCommitSHA q /\
          Deployment.GetCreatedAt d = t).
Proof.
  intros Hnomatch Hlater.
  apply deploymentShas_None in Hnomatch.
  set (shas := deploymentShas deployments) in *.
  set (sha := PullRequest.GetMergeCommitSHA pr) in *.
  assert (getDeploymentTimesForSHA deployments (walked ++ pr :: rest) !! sha
          = snd (correlateStep shas (correlateWalk shas walked) pr) !! sha) as Hres.
  { unfold getDeploymentTimesForSHA. fold shas.
    rewrite correlateWalk_app. simpl. by apply fold_correlateStep_other. }
  rewrite Hres.
  pose proof (correlateWalk_inv shas walked) as Hinv.
  pose proof (knownDeploymentTime_last_match shas walked) as Hlast.
  pose proof (correlation_entries_forward_filled deployments walked sha) as Hentries.
  unfold getDeploymentTimesForSHA, knownDeploymentTime in *. fold shas in Hentries.
  destruct (correlateWalk shas walked) as [cur m] eqn:Hw. simpl in *.
  unfold correlateStep. fold sha. rewrite Hnomatch.
  split; [|split].
  - intros before q after t Hsplit Hq Hafter.
    assert (cur = t) as ->.
    { change cur with (fst (cur, m)). rewrite <- Hw, Hsplit.
      apply (knownDeploymentTime_after_match shas before q after t Hq).
      intros q' Hq'. apply deploymentShas_None. intros d' Hd'. by apply Hafter. }
    split; [done|].
    destruct (IsZero t) eqn:Hz; simpl.
    + split; [|done]. intros Hm. apply Hinv in Hm as [Hm _]. congruence.
    + by rewrite lookup_insert_eq.
  - intros Hnone.
    assert (correlateWalk shas walked = (zeroTime, ∅)) as Hempty.
    { apply correlateWalk_unmatched. intros q Hq. apply deploymentShas_None.
      intros d Hd. by apply Hnone. }
    rewrite Hw in Hempty. injection Hempty as -> ->. simpl. apply lookup_empty.
  - intros t Ht.
    assert (IsZero t = false /\
            exists q, q ∈ walked /\ shas !! PullRequest.GetMergeCommitSHA q = Some t)
      as [Hz (q & Hq & Hindex)].
    { destruct (IsZero cur) eqn:Hcur; simpl in Ht.
      - destruct (Hentries t Ht) as (w & p & r & Hsplit & _ & _ & Hknown & Hz).
        split; [done|].
        pose proof (knownDeploymentTime_last_match shas w) as Hw'.
        unfold knownDeploymentTime in Hw'. rewrite Hknown in Hw'.
        destruct (Hw' Hz) as (before & q & after & -> & Hq & _).
        exists q. split; [|done]. rewrite Hsplit.
        apply elem_of_app. left. apply elem_of_app. right. by left.
      - rewrite lookup_insert_eq in Ht. injection Ht as <-.
        split; [done|].
        destruct (Hlast eq_refl) as (before & q & after & -> & Hq & _).
        exists q. split; [|done]. apply elem_of_app. right. by left. }
    split; [done|].
    apply deploymentShas_lookup in Hindex as (d & Hd & Hsha & Hcreated).
    by exists q, d.
Qed.

Lemma forward_fill_witness :
  getDeploymentTimesForSHA [deployC2] ([PR2; PR3] ++ PR1 :: [])
    !! PullRequest.GetMergeCommitSHA PR1 = Some (425 * Hour)
  /\ getDeploymentTimesForSHA [deployC2] ([] ++ PR3 :: [PR2; PR1])
       !! PullRequest.GetMergeCommitSHA PR3 = None.
Proof.
  split.
  - assert (forall d, d ∈ [deployC2] ->
              Deployment.GetSHA d <> PullRequest.GetMergeCommitSHA PR1) as Hnomatch.
    { intros d Hd. apply list_elem_of_singleton in Hd as ->. discriminate. }
    destruct (forward_fill [deployC2] [PR2; PR3] PR1 [] Hnomatch (not_elem_of_nil _))
      as (Hfill & _ & _).
    destruct (Hfill [] PR2 [PR3] (425 * Hour) eq_refl eq_refl) as [_ Hiff].
    + intros q' d' Hq' Hd'.
      apply list_elem_of_singleton in Hq' as ->.
      apply list_elem_of_singleton in Hd' as ->. discriminate.
    + apply Hiff. reflexivity.
  - apply (forward_fill [deployC2] [] PR3 [PR2; PR1]).
    + intros d Hd. apply list_elem_of_singleton in Hd as ->. discriminate.
    + apply (bool_decide_unpack _). vm_compute. exact I.
    + intros q d Hq. by apply not_elem_of_nil in Hq.
Defined.

(** C4 as stated fails when a merge commit recurs in the walk: [PR4] is
    passed before any pull request has matched a deployment, and its merge
    commit C1 is nevertheless a key of the result, written when the walk
    passes [PR1] after the match of [PR2]. *)
Lemma forward_fill_counterexample : ~ forwardFillAsStated [deployC2] [PR4; PR2; PR1].
Proof.
  intros H. specialize (H [] PR4 [PR2; PR1] eq_refl).
  destruct H as [H _].
  - intros d Hd. apply list_elem_of_singleton in Hd as ->. discriminate.
  - destruct H as (q & _ & Hq & _).
    + exists (425 * Hour). vm_compute. reflexivity.
    + by apply not_elem_of_nil in Hq.
Qed.

(** It also fails for a deployment without a creation time: [PR2] is
    merged by the commit of the listed deployment, and [PR1], passed
    after it, is absent from the result, since the time taken from that
    deployment is the zero time. *)
Lemma untimed_deployment_not_established :
  ~ forwardFillAsStated [deployC2Untimed] [PR2; PR1].
Proof.
  intros H. specialize (H [PR2] PR1 [] eq_refl).
  destruct H as [_ H].
  - intros d Hd. apply list_elem_of_singleton in Hd as ->. discriminate.
  - destruct H as [t Ht].
    + exists PR2, deployC2Untimed. repeat split.
      * apply list_elem_of_here.
      * apply list_elem_of_here.
    + vm_compute in Ht. discriminate Ht.
Qed.

(** ** Retrieving a paginated source *)

Lemma drop_pages {A} (pages : list (list A)) i :
  concat (drop i pages) = nth i pages [] ++ concat (drop (S i) pages).
Proof.
  rewrite nth_lookup. destruct (pages !! i) as [pg|] eqn:Hi; simpl.
  - by rewrite (drop_S _ _ _ Hi).
  - apply lookup_ge_None in Hi. rewrite !drop_ge by lia. done.
Qed.

(** With enough fuel the retrieval loop returns the pages from the
    requested one on, in order. *)
Lemma timelineLoop_served request pages :
  (forall page, request page = servePages pages page) ->
  forall fuel page allEvents,
    (1 <= fuel)%nat -> (length pages - Nat.pred page <= fuel)%nat ->
    timelineLoop fuel request page allEvents
    = Returns (allEvents ++ concat (drop (Nat.pred page) pages)).
Proof.
  intros Hserve. induction fuel as [|fuel IH]; intros page allEvents H1 Hlen; [lia|].
  simpl. rewrite Hserve. unfold servePages. simpl.
  rewrite (drop_pages pages (Nat.pred page)).
  destruct (Nat.ltb_spec (S (Nat.pred page)) (length pages)) as [Hlt|Hge]; simpl.
  - rewrite IH by (simpl; lia). simpl. by rewrite <- app_assoc.
  - rewrite (drop_ge pages (S (Nat.pred page))) by lia. simpl.
    by rewrite app_nil_r.
Qed.

(** The events retrieved for a pull request whose timeline is served from
    [pages]: all of them, rearranged by [sort.Slice]. *)
Lemma getAllTimelineEvents_served `{GoRuntime} fuel ghClient pr pages :
  timelineServed ghClient pr pages -> fuelFor pages fuel ->
  getAllTimelineEventsForPullRequest fuel ghClient pr
  = Returns (sortSlice lessTimeline (concat pages)).
Proof.
  intros (number & Hnumber & Hserve) [H1 Hlen].
  unfold getAllTimelineEventsForPullRequest. rewrite Hnumber. simpl.
  rewrite (timelineLoop_served _ pages Hserve) by (simpl; lia). done.
Qed.

(** The statistics of a pull request whose timeline is served and whose
    head branch is labelled. *)
Lemma processPullRequest_served `{GoRuntime} fuel ghClient pr pages deployTimes :
  timelineServed ghClient pr pages -> fuelFor pages fuel -> hasBranchLabel pr ->
  exists stat label,
    processPullRequest fuel ghClient pr deployTimes = Returns stat /\
    let st := reconstruct pr (sortSlice lessTimeline (concat pages)) in
    let timeDeployed := default zeroTime (deployTimes !! PullRequest.GetMergeCommitSHA pr) in
    doesPullRequestHaveIssueAttached pr = Returns (negb (Contains label branchPrefixNoIssue)) /\
    IsTrackedWithIssue stat = negb (Contains label branchPrefixNoIssue) /\
    TimeToReview stat = Round (Sub (timeReviewed st) (timeReviewRequested st)) Hour /\
    TimeToMerge stat = Round (Sub (PullRequest.GetMergedAt pr) (timeReviewRequested st)) Hour /\
    TimeToProduction stat = Round (Sub timeDeployed (timeReviewRequested st)) Hour /\
    WasReviewed stat = wasReviewed st /\
    WasDeployed stat = negb (IsZero timeDeployed).
Proof.
  intros Hserved Hfuel (head & label & Hhead & Hlabel).
  unfold processPullRequest.
  rewrite (getAllTimelineEvents_served fuel ghClient pr pages Hserved Hfuel). simpl.
  unfold doesPullRequestHaveIssueAttached. rewrite Hhead. simpl. rewrite Hlabel. simpl.
  eexists _, label. split; [reflexivity|]. simpl.
  destruct (deployTimes !! PullRequest.GetMergeCommitSHA pr); simpl; auto 10.
Qed.

(** ** The timeline reconstructor *)

Lemma effectiveTime_sorted `{rt : GoRuntime} (Hrt : SortSliceSpec rt) events :
  StronglySorted (fun a b => effectiveTime b <= effectiveTime a)
                 (sortSlice lessTimeline events).
Proof.
  pose proof (sortSlice_sorted rt Hrt _ lessTimeline events
                lessTimeline_asym lessTimeline_negtrans) as Hs.
  induction Hs as [|a l Hl IH Ha]; constructor; [exact IH|].
  eapply Forall_impl; [exact Ha|]. intros b Hb. simpl in Hb.
  rewrite lessTimeline_spec in Hb. lia.
Qed.

(** C6.  The events retrieved for a pull request are all the events of
    all the pages, and they are handed to the scan sorted by descending
    effective time.  The effective time of an event is its creation time
    when it has one, else its submission time (review events), else the
    zero time. *)
Theorem timeline_sorted_descending `{rt : GoRuntime} (Hrt : SortSliceSpec rt)
    fuel ghClient pr pages :
  timelineServed ghClient pr pages -> fuelFor pages fuel ->
  (exists events,
     getAllTimelineEventsForPullRequest fuel ghClient pr = Returns events /\
     events ≡ₚ concat pages /\
     StronglySorted (fun a b => effectiveTime b <= effectiveTime a) events /\
     forall deployTimes, hasBranchLabel pr ->
       exists stat, processPullRequest fuel ghClient pr deployTimes = Returns stat /\
         WasReviewed stat = wasReviewed (reconstruct pr events))
  /\ (forall e t, Timeline.CreatedAt e = Some t -> t <> zeroTime -> effectiveTime e = t)
  /\ (forall e t, Timeline.CreatedAt e = None -> Timeline.SubmittedAt e = Some t ->
        effectiveTime e = t)
  /\ (forall e, Timeline.CreatedAt e = None -> Timeline.SubmittedAt e = None ->
        effectiveTime e = zeroTime).
Proof.
  intros Hserved Hfuel. split; [|split; [|split]].
  - exists (sortSlice lessTimeline (concat pages)).
    split; [by apply getAllTimelineEvents_served|].
    split; [apply (sortSlice_perm rt Hrt)|].
    split; [by apply effectiveTime_sorted|].
    intros deployTimes Hlabel.
    destruct (processPullRequest_served fuel ghClient pr pages deployTimes
                Hserved Hfuel Hlabel) as (stat & label & Hret & Hstat).
    exists stat. split; [exact Hret|]. simpl in Hstat. tauto.
  - intros e t Hc Ht. unfold effectiveTime, Timeline.GetCreatedAt, IsZero.
    rewrite Hc. simpl. destruct (Z.eqb_spec t 0); [done|reflexivity].
  - intros e t Hc Hs. unfold effectiveTime, Timeline.GetCreatedAt, Timeline.GetSubmittedAt.
    rewrite Hc, Hs. reflexivity.
  - intros e Hc Hs. unfold effectiveTime, Timeline.GetCreatedAt, Timeline.GetSubmittedAt.
    rewrite Hc, Hs. reflexivity.
Qed.

Lemma timeline_sorted_descending_witness :
  exists events,
    @getAllTimelineEventsForPullRequest amd64 2
      (sampleClient [] scenarioTimeline []) scenarioPR = Returns events /\
    StronglySorted (fun a b => effectiveTime b <= effectiveTime a) events.
Proof.
  destruct (@timeline_sorted_descending amd64 amd64_sortSlice 2
              (sampleClient [] scenarioTimeline []) scenarioPR scenarioTimeline)
    as [(events & Hret & _ & Hsorted & _) _].
  - exists 7. split; [reflexivity|]. intros page. reflexivity.
  - split; simpl; lia.
  - exists events. by split.
Defined.

(** A scan that meets no reviewed event leaves the review undetermined. *)
Lemma scanTimeline_unreviewed events st :
  (forall e, e ∈ events -> Timeline.GetEvent e <> eventReviewed) ->
  wasReviewed (scanTimeline events st) = wasReviewed st /\
  timeReviewed (scanTimeline events st) = timeReviewed st.
Proof.
  revert st. induction events as [|e events IH]; intros st Hnone; simpl; [done|].
  assert (String.eqb (Timeline.GetEvent e) eventReviewed = false) as ->.
  { apply String.eqb_neq, Hnone. left. }
  rewrite andb_false_r.
  destruct (IH (if isFirstReview st && String.eqb (Timeline.GetEvent e) eventReviewRequested
                then {| timeReviewRequested := Timeline.GetCreatedAt e;
                        isFirstReview := false;
                        wasReviewed := wasReviewed st;
                        timeReviewed := timeReviewed st |}
                else st)) as [Hw Ht].
  { intros e' He'. apply Hnone. by right. }
  rewrite Hw, Ht. by destruct (isFirstReview st && _).
Qed.

(** The aggregation loop reads [TimeToReview] of reviewed items only. *)
Lemma tallyStep_unreviewed a stat d :
  WasReviewed stat = false -> tallyStep a (withTimeToReview d stat) = tallyStep a stat.
Proof. intros Hr. unfold tallyStep. simpl. by rewrite Hr. Qed.

Lemma aggregate_unreviewed `{GoRuntime} before stat after n d :
  WasReviewed stat = false ->
  aggregate (before ++ withTimeToReview d stat :: after) n
  = aggregate (before ++ stat :: after) n.
Proof.
  intros Hr. unfold aggregate. rewrite !fold_left_app. simpl.
  by rewrite tallyStep_unreviewed.
Qed.

(** C7.  A pull request whose timeline has no reviewed event is
    processed into statistics with [WasReviewed] false.  Its
    [TimeToReview] carries no review: it is measured from the zero time
    of the unset review timestamp, and the aggregation gives the same
    result whatever value stands there. *)
Theorem unreviewed_statistics `{rt : GoRuntime} (Hrt : SortSliceSpec rt)
    fuel ghClient pr pages deployTimes :
  timelineServed ghClient pr pages -> fuelFor pages fuel -> hasBranchLabel pr ->
  (forall e, e ∈ concat pages -> Timeline.GetEvent e <> eventReviewed) ->
  exists stat,
    processPullRequest fuel ghClient pr deployTimes = Returns stat /\
    WasReviewed stat = false /\
    timeReviewed (reconstruct pr (sortSlice lessTimeline (concat pages))) = zeroTime /\
    TimeToReview stat
    = Round (Sub zeroTime
               (timeReviewRequested (reconstruct pr (sortSlice lessTimeline (concat pages)))))
            Hour /\
    forall before after n d,
      aggregate (before ++ withTimeToReview d stat :: after) n
      = aggregate (before ++ stat :: after) n.
Proof.
  intros Hserved Hfuel Hlabel Hnone.
  destruct (processPullRequest_served fuel ghClient pr pages deployTimes
              Hserved Hfuel Hlabel) as (stat & label & Hret & Hstat).
  simpl in Hstat. destruct Hstat as (_ & _ & Hreview & _ & _ & Hwas & _).
  destruct (scanTimeline_unreviewed (sortSlice lessTimeline (concat pages))
              {| timeReviewRequested := PullRequest.GetCreatedAt pr;
                 isFirstReview := true; wasReviewed := false;
                 timeReviewed := zeroTime |}) as [Hw Ht].
  { intros e He. apply Hnone. by rewrite <- (sortSlice_perm rt Hrt _ lessTimeline). }
  fold (reconstruct pr (sortSlice lessTimeline (concat pages))) in Hw, Ht.
  simpl in Hw, Ht.
  assert (WasReviewed stat = false) as Hunrev by congruence.
  exists stat. split; [exact Hret|]. split; [exact Hunrev|]. split; [exact Ht|].
  split; [by rewrite Hreview, Ht|].
  intros before after n d. by apply aggregate_unreviewed.
Qed.

Lemma unreviewed_statistics_witness :
  exists stat,
    @processPullRequest amd64 1
      (sampleClient [] [[reviewRequestedAt (200 * Hour); commitEvent]] [])
      scenarioPR ∅ = Returns stat /\
    WasReviewed stat = false /\ TimeToReview stat = - (200 * Hour).
Proof.
  destruct (@unreviewed_statistics amd64 amd64_sortSlice 1
              (sampleClient [] [[reviewRequestedAt (200 * Hour); commitEvent]] [])
              scenarioPR [[reviewRequestedAt (200 * Hour); commitEvent]] ∅)
    as (stat & Hret & Hunrev & _ & Htime & _).
  - exists 7. split; [reflexivity|]. intros page. reflexivity.
  - split; simpl; lia.
  - by exists {| PullRequestBranch.Label := Some "feature/JIRA-7"%string |},
              "feature/JIRA-7"%string.
  - intros e He. simpl in He.
    apply elem_of_cons in He as [->|He]; [discriminate|].
    apply list_elem_of_singleton in He as ->. discriminate.
  - exists stat. split; [exact Hret|]. split; [exact Hunrev|].
    rewrite Htime. vm_compute. reflexivity.
Defined.

(** The scan leaves the loop at a reviewed event it meets first, with the
    request time still at its default. *)
Lemma reconstruct_reviewed_first pr r rest :
  Timeline.GetEvent r = eventReviewed ->
  reconstruct pr (r :: rest)
  = {| timeReviewRequested := PullRequest.GetCreatedAt pr;
       isFirstReview := true;
       wasReviewed := true;
       timeReviewed := Timeline.GetSubmittedAt r |}.
Proof. intros Hr. unfold reconstruct. simpl. rewrite Hr. reflexivity. Qed.

(** An event that no other event reaches in effective time is the first
    of the sorted events. *)
Lemma sorted_head_latest events r :
  StronglySorted (fun a b => effectiveTime b <= effectiveTime a) events ->
  r ∈ events ->
  (forall e, e ∈ events -> effectiveTime r <= effectiveTime e -> e = r) ->
  exists rest, events = r :: rest.
Proof.
  intros Hsorted Hr Hlatest.
  destruct Hsorted as [|a l Hl Ha]; [by apply not_elem_of_nil in Hr|].
  exists l. f_equal. apply Hlatest; [left|].
  apply elem_of_cons in Hr as [->|Hr]; [lia|].
  rewrite Forall_forall in Ha. by apply Ha.
Qed.

(** C2, as the code has it.  For the timeline of a reviewed event
    submitted at [t3], a review_requested event created at [t1] before
    it, and a commit event without timestamp, the reviewed event is the
    first of the sorted events and the scan stops there: the review is
    found ([timeReviewed = t3], [wasReviewed = true]), and the request
    time is the creation date of the pull request, not [t1]. *)
Theorem reviewed_first_hides_request `{rt : GoRuntime} (Hrt : SortSliceSpec rt)
    fuel ghClient pr pages t1 t3 :
  timelineServed ghClient pr pages -> fuelFor pages fuel ->
  concat pages ≡ₚ [reviewedAt t3; reviewRequestedAt t1; commitEvent] ->
  zeroTime < t1 -> t1 < t3 ->
  exists events,
    getAllTimelineEventsForPullRequest fuel ghClient pr = Returns events /\
    reconstruct pr events
    = {| timeReviewRequested := PullRequest.GetCreatedAt pr;
         isFirstReview := true;
         wasReviewed := true;
         timeReviewed := t3 |}.
Proof.
  intros Hserved Hfuel Hperm H1 H3.
  exists (sortSlice lessTimeline (concat pages)).
  split; [by apply getAllTimelineEvents_served|].
  assert (sortSlice lessTimeline (concat pages)
          ≡ₚ [reviewedAt t3; reviewRequestedAt t1; commitEvent]) as Hp
    by (etrans; [apply (sortSlice_perm rt Hrt)|exact Hperm]).
  destruct (sorted_head_latest (sortSlice lessTimeline (concat pages)) (reviewedAt t3))
    as [rest ->].
  - by apply effectiveTime_sorted.
  - rewrite Hp. left.
  - intros e He. rewrite Hp in He.
    assert (effectiveTime (reviewedAt t3) = t3) as -> by reflexivity.
    assert (effectiveTime (reviewRequestedAt t1) = t1) as Hrr.
    { unfold effectiveTime, reviewRequestedAt, Timeline.GetCreatedAt, IsZero. simpl.
      unfold zeroTime in H1. destruct (Z.eqb_spec t1 0); [lia|done]. }
    assert (effectiveTime commitEvent = 0) as Hc by reflexivity.
    apply elem_of_cons in He as [->|He]; [done|].
    apply elem_of_cons in He as [->|He]; [unfold zeroTime in *; lia|].
    apply list_elem_of_singleton in He as ->. unfold zeroTime in *. lia.
  - by rewrite reconstruct_reviewed_first.
Qed.

(** The scenario with the pull request created at hour 100, the review
    requested at hour 200 and the review submitted at hour 300: the scan
    takes hour 100 for the request time, and the time to review is 200
    hours, not 100. *)
Lemma reviewed_first_hides_request_witness :
  exists events stat,
    @getAllTimelineEventsForPullRequest amd64 2
      (sampleClient [] scenarioTimeline []) scenarioPR = Returns events /\
    timeReviewRequested (reconstruct scenarioPR events) = 100 * Hour /\
    timeReviewed (reconstruct scenarioPR events) = 300 * Hour /\
    @processPullRequest amd64 2 (sampleClient [] scenarioTimeline []) scenarioPR ∅
    = Returns stat /\
    TimeToReview stat = 200 * Hour.
Proof.
  destruct (@reviewed_first_hides_request amd64 amd64_sortSlice 2
              (sampleClient [] scenarioTimeline []) scenarioPR scenarioTimeline
              (200 * Hour) (300 * Hour))
    as (events & Hret & Hscan).
  - exists 7. split; [reflexivity|]. intros page. reflexivity.
  - split; simpl; lia.
  - reflexivity.
  - reflexivity.
  - reflexivity.
  - exists events. eexists. split; [exact Hret|]. rewrite Hscan. simpl.
    split; [reflexivity|]. split; [reflexivity|].
    split; [vm_compute; reflexivity|]. reflexivity.
Defined.

(** ** Statistics of one pull request *)

(** What [processPullRequest] returns, when it returns. *)
Lemma processPullRequest_inv `{GoRuntime} fuel ghClient pr deployTimes stat :
  processPullRequest fuel ghClient pr deployTimes = Returns stat ->
  exists events isTracked,
    getAllTimelineEventsForPullRequest fuel ghClient pr = Returns events /\
    doesPullRequestHaveIssueAttached pr = Returns isTracked /\
    let st := reconstruct pr events in
    let timeDeployed := default zeroTime (deployTimes !! PullRequest.GetMergeCommitSHA pr) in
    IsTrackedWithIssue stat = isTracked /\
    TimeToReview stat = Round (Sub (timeReviewed st) (timeReviewRequested st)) Hour /\
    TimeToMerge stat = Round (Sub (PullRequest.GetMergedAt pr) (timeReviewRequested st)) Hour /\
    TimeToProduction stat = Round (Sub timeDeployed (timeReviewRequested st)) Hour /\
    WasReviewed stat = wasReviewed st /\
    WasDeployed stat = negb (IsZero timeDeployed).
Proof.
  unfold processPullRequest.
  destruct (getAllTimelineEventsForPullRequest fuel ghClient pr) as [events|f]; simpl; [|done].
  destruct (doesPullRequestHaveIssueAttached pr) as [isTracked|f]; simpl; [|done].
  intros [= <-]. exists events, isTracked. simpl.
  destruct (deployTimes !! PullRequest.GetMergeCommitSHA pr); simpl; auto 10.
Qed.

(** C10.  Every time stored in the mapping of the correlator is not the
    zero time.  So the statistics of a processed pull request (one is
    produced whenever the timeline is served and the head branch is
    labelled) have [WasDeployed] true exactly when the merge-commit SHA
    of the pull request is a key of the mapping; then [TimeToProduction]
    is the rounded time from the request to the mapped time, and
    otherwise it is measured from the zero time. *)
Theorem deployed_flag_invariant `{rt : GoRuntime} fuel ghClient deployments pullRequests pr :
  (forall sha t, getDeploymentTimesForSHA deployments pullRequests !! sha = Some t ->
     IsZero t = false)
  /\ (forall pages,
        timelineServed ghClient pr pages -> fuelFor pages fuel -> hasBranchLabel pr ->
        exists stat,
          processPullRequest fuel ghClient pr
            (getDeploymentTimesForSHA deployments pullRequests) = Returns stat)
  /\ forall stat,
       processPullRequest fuel ghClient pr
         (getDeploymentTimesForSHA deployments pullRequests) = Returns stat ->
       (WasDeployed stat = true <->
        is_Some (getDeploymentTimesForSHA deployments pullRequests
                   !! PullRequest.GetMergeCommitSHA pr))
       /\ exists events,
            getAllTimelineEventsForPullRequest fuel ghClient pr = Returns events /\
            (forall t, getDeploymentTimesForSHA deployments pullRequests
                         !! PullRequest.GetMergeCommitSHA pr = Some t ->
               WasDeployed stat = true /\
               TimeToProduction stat
               = Round (Sub t (timeReviewRequested (reconstruct pr events))) Hour) /\
            (getDeploymentTimesForSHA deployments pullRequests
               !! PullRequest.GetMergeCommitSHA pr = None ->
               WasDeployed stat = false /\
               TimeToProduction stat
               = Round (Sub zeroTime (timeReviewRequested (reconstruct pr events))) Hour).
Proof.
  assert (forall sha t, getDeploymentTimesForSHA deployments pullRequests !! sha = Some t ->
            IsZero t = false) as Hnonzero
    by (intros sha t Ht; by apply getDeploymentTimesForSHA_inv in Ht as [Ht _]).
  split; [exact Hnonzero|]. split.
  { intros pages Hserved Hfuel Hlabel.
    destruct (processPullRequest_served fuel ghClient pr pages
                (getDeploymentTimesForSHA deployments pullRequests) Hserved Hfuel Hlabel)
      as (stat & _ & Hret & _).
    by exists stat. }
  intros stat Hret.
  apply processPullRequest_inv in Hret as (events & isTracked & Hev & _ & Hstat).
  simpl in Hstat. destruct Hstat as (_ & _ & _ & Hprod & _ & Hdep).
  destruct (getDeploymentTimesForSHA deployments pullRequests
              !! PullRequest.GetMergeCommitSHA pr) as [t|] eqn:Hlook; simpl in *.
  - rewrite (Hnonzero _ _ Hlook) in Hdep. simpl in Hdep.
    split; [split; [by eexists|done]|].
    exists events. split; [exact Hev|]. split; [|done].
    intros t' [= <-]. by split.
  - split; [split; [rewrite Hdep; discriminate|by intros [? ?]]|].
    exists events. split; [exact Hev|]. split; [done|]. intros _. by split.
Qed.

(** PR1 follows the deployed PR2 in the walk: its merge commit is a key of
    the mapping and it is flagged as deployed. *)
Lemma deployed_flag_invariant_witness :
  exists stat,
    @processPullRequest amd64 2 (sampleClient [] scenarioTimeline [deployC2]) PR1
      (getDeploymentTimesForSHA [deployC2] [PR3; PR2; PR1]) = Returns stat /\
    WasDeployed stat = true /\
    is_Some (getDeploymentTimesForSHA [deployC2] [PR3; PR2; PR1]
               !! PullRequest.GetMergeCommitSHA PR1).
Proof.
  destruct (@deployed_flag_invariant amd64 2 (sampleClient [] scenarioTimeline [deployC2])
              [deployC2] [PR3; PR2; PR1] PR1) as (_ & Hprod & Hflag).
  destruct (Hprod scenarioTimeline) as [stat Hret].
  - exists 1. split; [reflexivity|]. intros page. reflexivity.
  - split; simpl; lia.
  - by exists {| PullRequestBranch.Label := Some "feature/noticket-fix"%string |},
              "feature/noticket-fix"%string.
  - destruct (Hflag stat Hret) as [Hiff _].
    exists stat. split; [exact Hret|].
    assert (is_Some (getDeploymentTimesForSHA [deployC2] [PR3; PR2; PR1]
                       !! PullRequest.GetMergeCommitSHA PR1)) as Hkey
      by (exists (425 * Hour); reflexivity).
    split; [by apply Hiff|exact Hkey].
Defined.

(** ** The aggregator *)

(** The accumulators of the aggregation loop, as selections of the
    batch. *)
Lemma tally_fold prStats a :
  let a' := fold_left tallyStep prStats a in
  untrackedPullRequests a'
  = untrackedPullRequests a
    + Z.of_nat (length (List.filter (fun stat => negb (IsTrackedWithIssue stat)) prStats)) /\
  reviewedPullRequests a'
  = reviewedPullRequests a + Z.of_nat (length (reviewedStats prStats)) /\
  deployedPullRequests a'
  = deployedPullRequests a + Z.of_nat (length (deployedStats prStats)) /\
  reviewTime a'
  = reviewTime a ++ map (fun stat => Hours (TimeToReview stat)) (reviewedStats prStats) /\
  timeToMerge a' = timeToMerge a ++ map (fun stat => Hours (TimeToMerge stat)) prStats /\
  leadTimeForChanges a'
  = leadTimeForChanges a
    ++ map (fun stat => Hours (TimeToProduction stat)) (deployedStats prStats) /\
  totalReviewTime a'
  = sumInt (map (fun stat => wholeHours (TimeToReview stat)) (reviewedStats prStats))
           (totalReviewTime a).
Proof.
  revert a. induction prStats as [|stat prStats IH]; intros a; simpl.
  - rewrite !app_nil_r. repeat split; lia.
  - destruct (IH (tallyStep a stat)) as (Hu & Hr & Hd & Hrt & Htm & Hlt & Htot).
    simpl in *. rewrite Hu, Hr, Hd, Hrt, Htm, Hlt, Htot. clear.
    unfold tallyStep, reviewedStats, deployedStats, wholeHours, sumInt. simpl.
    destruct (IsTrackedWithIssue stat), (WasReviewed stat), (WasDeployed stat); simpl;
      rewrite <- ?app_assoc; simpl; repeat split; lia.
Qed.

Lemma aggregate_inv `{GoRuntime} prStats n m :
  aggregate prStats n = Returns m ->
  reviewedStats prStats <> [] /\
  AverageReviewTime m
  = wrap64 (Z.quot (sumInt (map (fun stat => wholeHours (TimeToReview stat))
                                (reviewedStats prStats)) 0)
                   (Z.of_nat (length (reviewedStats prStats)))) /\
  MedianReviewTime m
  = intOfMedian (Median (map (fun stat => Hours (TimeToReview stat)) (reviewedStats prStats))) /\
  MedianTimeToMerge m
  = intOfMedian (Median (map (fun stat => Hours (TimeToMerge stat)) prStats)) /\
  MedianLeadTimeForChanges m
  = intOfMedian (Median (map (fun stat => Hours (TimeToProduction stat))
                             (deployedStats prStats))) /\
  TotalPullRequests m = n /\
  PullRequestsWithoutIssue m
  = Z.of_nat (length (List.filter (fun stat => negb (IsTrackedWithIssue stat)) prStats)) /\
  PullRequestsWithReview m = Z.of_nat (length (reviewedStats prStats)).
Proof.
  unfold aggregate.
  destruct (tally_fold prStats tallyZero) as (Hu & Hr & Hd & Hrt & Htm & Hlt & Htot).
  simpl in *. rewrite Z.add_0_l in Hu, Hr.
  rewrite Hu, Hr, Hrt, Htm, Hlt, Htot. clear.
  unfold intDiv.
  destruct (Z.eqb_spec (Z.of_nat (length (reviewedStats prStats))) 0) as [Hz|Hnz]; simpl;
    [done|].
  intros [= <-]. simpl. repeat split; try done.
  intros Hnil. rewrite Hnil in Hnz. done.
Qed.

(** C3, as the code has it.  On a batch without reviewed items (the
    empty batch among them) the aggregation divides the total review time
    by a zero count: the run panics and no [Metrics] is produced. *)
Theorem aggregate_without_review_panics `{rt : GoRuntime} prStats n :
  Forall (fun stat => WasReviewed stat = false) prStats ->
  aggregate prStats n = Aborts DivideByZero.
Proof.
  intros Hnone.
  assert (reviewedStats prStats = []) as Hnil.
  { unfold reviewedStats. induction Hnone as [|stat l Hstat Hl IH]; simpl; [done|].
    rewrite Hstat. exact IH. }
  unfold aggregate.
  destruct (tally_fold prStats tallyZero) as (_ & Hr & _).
  simpl in Hr. rewrite Hr, Hnil. reflexivity.
Qed.

Lemma aggregate_without_review_panics_witness :
  @aggregate amd64 [] 0 = Aborts DivideByZero.
Proof. apply (@aggregate_without_review_panics amd64 [] 0). constructor. Defined.

(** The empty window: [AnalyzePullRequests] on no pull request panics,
    whatever the client. *)
Lemma AnalyzePullRequests_empty_panics `{rt : GoRuntime} fuel ghClient :
  AnalyzePullRequests fuel ghClient [] = Aborts DivideByZero.
Proof. reflexivity. Qed.

Lemma forEach_inv {A B} (f : A -> Outcome B) xs ys :
  forEach f xs = Returns ys -> Forall2 (fun x y => f x = Returns y) xs ys.
Proof.
  revert ys. induction xs as [|x xs IH]; intros ys; simpl.
  - intros [= <-]. constructor.
  - destruct (f x) as [y|e] eqn:Hx; simpl; [|done].
    destruct (forEach f xs) as [ys'|e]; simpl; [|done].
    intros [= <-]. constructor; [done|]. by apply IH.
Qed.

(** [Metrics] is produced as soon as one item of the batch was
    reviewed. *)
Lemma aggregate_returns `{GoRuntime} prStats n :
  reviewedStats prStats <> [] -> exists m, aggregate prStats n = Returns m.
Proof.
  intros Hne. unfold aggregate.
  destruct (tally_fold prStats tallyZero) as (_ & Hr & _).
  simpl in Hr. rewrite Hr. unfold intDiv.
  destruct (Z.eqb_spec (0 + Z.of_nat (length (reviewedStats prStats))) 0) as [Hz|Hnz].
  - destruct (reviewedStats prStats); [done|simpl in Hz; lia].
  - simpl. by eexists.
Qed.

Lemma AnalyzePullRequests_returns `{GoRuntime} fuel ghClient prs prStats :
  forEach (fun pr => processPullRequest fuel ghClient pr
             (getDeploymentTimesForSHA (Repositories_ListDeployments ghClient) prs)) prs
  = Returns prStats ->
  reviewedStats prStats <> [] ->
  exists m, AnalyzePullRequests fuel ghClient prs = Returns m.
Proof.
  intros Hstats Hne. unfold AnalyzePullRequests. rewrite Hstats. simpl.
  by apply aggregate_returns.
Qed.

Lemma AnalyzePullRequests_inv `{GoRuntime} fuel ghClient prs prStats m :
  forEach (fun pr => processPullRequest fuel ghClient pr
             (getDeploymentTimesForSHA (Repositories_ListDeployments ghClient) prs)) prs
  = Returns prStats ->
  AnalyzePullRequests fuel ghClient prs = Returns m ->
  length prStats = length prs /\
  aggregate prStats (Z.of_nat (length prs)) = Returns m.
Proof.
  intros Hstats. unfold AnalyzePullRequests. rewrite Hstats. simpl. intros Hagg.
  split; [|exact Hagg]. symmetry. by apply forEach_inv, Forall2_length in Hstats.
Qed.

(** C9.  Let a batch be processed into the statistics [prStats].  As soon
    as one item was reviewed [Metrics] is produced, and in the [Metrics]
    produced the number of reviewed items plus the number of items not
    reviewed is the total number of pull requests. *)
Theorem review_count_partition `{rt : GoRuntime} fuel ghClient prs prStats :
  forEach (fun pr => processPullRequest fuel ghClient pr
             (getDeploymentTimesForSHA (Repositories_ListDeployments ghClient) prs)) prs
  = Returns prStats ->
  (reviewedStats prStats <> [] ->
   exists m, AnalyzePullRequests fuel ghClient prs = Returns m)
  /\ forall m, AnalyzePullRequests fuel ghClient prs = Returns m ->
       TotalPullRequests m = Z.of_nat (length prStats) /\
       PullRequestsWithReview m = Z.of_nat (length (List.filter WasReviewed prStats)) /\
       PullRequestsWithReview m
       + Z.of_nat (length (List.filter (fun stat => negb (WasReviewed stat)) prStats))
       = TotalPullRequests m.
Proof.
  intros Hstats. split; [by apply AnalyzePullRequests_returns|].
  intros m Hret.
  destruct (AnalyzePullRequests_inv fuel ghClient prs prStats m Hstats Hret) as [Hlen Hagg].
  apply aggregate_inv in Hagg as (_ & _ & _ & _ & _ & Htotal & _ & Hrev).
  rewrite Htotal, Hrev, Hlen. unfold reviewedStats. split; [done|]. split; [done|].
  pose proof (List.filter_length WasReviewed prStats). lia.
Qed.

(** The three sample pull requests, each with the timeline of the
    scenario: all three are reviewed. *)
Lemma review_count_partition_witness :
  exists m,
    @AnalyzePullRequests amd64 2 (sampleClient [] scenarioTimeline [deployC2])
      [PR3; PR2; PR1] = Returns m /\
    PullRequestsWithReview m + 0 = TotalPullRequests m.
Proof.
  pose proof (@review_count_partition amd64 2 (sampleClient [] scenarioTimeline [deployC2])
                [PR3; PR2; PR1]) as H.
  destruct (forEach _ [PR3; PR2; PR1]) as [prStats|f] eqn:Hstats.
  - destruct (H prStats eq_refl) as [Hprod Hpart].
    assert (reviewedStats prStats <> []) as Hne
      by (vm_compute in Hstats; injection Hstats as <-; discriminate).
    destruct (Hprod Hne) as [m Hm]. exists m. split; [exact Hm|].
    destruct (Hpart m Hm) as (_ & _ & Hsum).
    vm_compute in Hstats. injection Hstats as <-. exact Hsum.
  - vm_compute in Hstats. discriminate Hstats.
Defined.

(** ** Rounding *)

(** [Round(time.Hour)] yields the nearest multiple of an hour, unless it
    saturates. *)
Lemma Round_Hour_nearest raw : inInt64 raw -> nearestHourOf raw (Round raw Hour).
Proof.
  intros Hraw. unfold nearestHourOf, Round, lessThanHalf.
  change (Hour <=? 0) with false. cbv iota. int64_bounds.
  change Hour with 3600000000000 in *.
  repeat match goal with
         | |- context [if ?b then _ else _] =>
             match b with
             | (?x <? ?y) => destruct (Z.ltb_spec x y)
             end
         end.
  - exists (Z.quot raw 3600000000000). Z.to_euclidean_division_equations. lia.
  - exists (Z.quot raw 3600000000000 - 1). Z.to_euclidean_division_equations. lia.
  - exists (Z.quot raw 3600000000000 - 1). Z.to_euclidean_division_equations. lia.
  - exists (Z.quot raw 3600000000000). Z.to_euclidean_division_equations. lia.
  - exists (Z.quot raw 3600000000000 + 1). Z.to_euclidean_division_equations. lia.
  - exists (Z.quot raw 3600000000000 + 1). Z.to_euclidean_division_equations. lia.
Qed.

Lemma Round_Sub_rounded t u : roundedToHour (Sub t u) (Round (Sub t u) Hour).
Proof. split; [done|]. apply Round_Hour_nearest, Sub_inInt64. Qed.

(** Two hours and forty minutes are rounded to three hours; the two
    hours of a truncation are not the nearest hour. *)
Example nearestHourOf_not_truncation :
  roundedToHour (2 * Hour + 40 * 60 * Second) (3 * Hour)
  /\ ~ nearestHourOf (2 * Hour + 40 * 60 * Second) (2 * Hour).
Proof.
  split.
  - replace (3 * Hour) with (Round (2 * Hour + 40 * 60 * Second) Hour)
      by (vm_compute; reflexivity).
    split; [done|]. apply Round_Hour_nearest. by vm_compute.
  - intros (k & Hnear & _ & H). unfold minDuration, maxDuration in H. int64_bounds.
    change Hour with 3600000000000 in *. change Second with 1000000000 in *. lia.
Qed.

(** [int(f)] drops the fraction of [f]: it lies between zero and [f],
    less than one away from [f]. *)
Lemma intOfFloat_toward_zero f :
  ((0 <= f -> inject_Z (intOfFloat f) <= f /\ f < inject_Z (intOfFloat f) + 1) /\
   (f <= 0 -> f <= inject_Z (intOfFloat f) /\ inject_Z (intOfFloat f) - 1 < f))%Q.
Proof.
  destruct f as [num den]. unfold intOfFloat, Qle, Qlt. simpl.
  split; intros Hsign; Z.to_euclidean_division_equations; nia.
Qed.

Lemma sumInt_inInt64 hours start : inInt64 start -> inInt64 (sumInt hours start).
Proof.
  revert start. unfold sumInt.
  induction hours as [|h hours IH]; intros start Hs; simpl; [done|].
  apply IH, wrap64_inInt64.
Qed.

(** The quotient of an [int] by a positive count is an [int]. *)
Lemma quot_count_inInt64 total count :
  inInt64 total -> 0 < count -> wrap64 (Z.quot total count) = Z.quot total count.
Proof.
  intros Ht Hc. apply wrap64_id. int64_bounds.
  Z.to_euclidean_division_equations. nia.
Qed.

Lemma processPullRequest_rounded `{GoRuntime} fuel ghClient pr deployTimes stat :
  processPullRequest fuel ghClient pr deployTimes = Returns stat ->
  exists events,
    getAllTimelineEventsForPullRequest fuel ghClient pr = Returns events /\
    roundedPerItem deployTimes pr events stat.
Proof.
  intros Hret.
  apply processPullRequest_inv in Hret as (events & isTracked & Hevents & _ & Hstat).
  simpl in Hstat. destruct Hstat as (_ & Hreview & Hmerge & Hproduction & _).
  exists events. split; [done|].
  unfold roundedPerItem, roundedToHour. rewrite Hreview, Hmerge, Hproduction.
  repeat split; apply Round_Hour_nearest, Sub_inInt64.
Qed.

(** C8, as the code has it.  Let a batch be processed into the
    statistics [prStats].  Each duration of each item is the duration
    measured on its pull request (from the review request to the review,
    to the merge, to the deployment), rounded to the nearest hour where
    it is computed.  The aggregation, which produces [Metrics] as soon as
    one item was reviewed, then truncates: the average review time is the
    integer quotient of the summed whole hours by the number of reviewed
    items, and each median is converted to an integer, which drops its
    fraction. *)
Theorem rounded_per_item_truncated_at_aggregation `{rt : GoRuntime}
    fuel ghClient prs prStats :
  forEach (fun pr => processPullRequest fuel ghClient pr
             (getDeploymentTimesForSHA (Repositories_ListDeployments ghClient) prs)) prs
  = Returns prStats ->
  Forall2 (fun pr stat =>
             exists events,
               getAllTimelineEventsForPullRequest fuel ghClient pr = Returns events /\
               roundedPerItem
                 (getDeploymentTimesForSHA (Repositories_ListDeployments ghClient) prs)
                 pr events stat) prs prStats
  /\ (reviewedStats prStats <> [] ->
      exists m, AnalyzePullRequests fuel ghClient prs = Returns m)
  /\ forall m, AnalyzePullRequests fuel ghClient prs = Returns m ->
       AverageReviewTime m
       = Z.quot (sumInt (map (fun stat => wholeHours (TimeToReview stat))
                             (reviewedStats prStats)) 0)
                (Z.of_nat (length (reviewedStats prStats))) /\
       MedianReviewTime m
       = intOfMedian (Median (map (fun stat => Hours (TimeToReview stat))
                                  (reviewedStats prStats))) /\
       MedianTimeToMerge m
       = intOfMedian (Median (map (fun stat => Hours (TimeToMerge stat)) prStats)) /\
       MedianLeadTimeForChanges m
       = intOfMedian (Median (map (fun stat => Hours (TimeToProduction stat))
                                  (deployedStats prStats))).
Proof.
  intros Hstats. split; [|split].
  - pose proof (forEach_inv _ _ _ Hstats) as Hall.
    eapply Forall2_impl; [exact Hall|].
    intros pr stat Hpr. simpl in Hpr. by apply processPullRequest_rounded.
  - by apply AnalyzePullRequests_returns.
  - intros m Hret.
    destruct (AnalyzePullRequests_inv fuel ghClient prs prStats m Hstats Hret) as [_ Hagg].
    apply aggregate_inv in Hagg as (Hne & Havg & Hmr & Hmm & Hml & _).
    rewrite Havg, Hmr, Hmm, Hml. split; [|done].
    apply quot_count_inInt64.
    + apply sumInt_inInt64. unfold inInt64, minInt64, maxInt64. lia.
    + destruct (reviewedStats prStats); [done|simpl; lia].
Qed.

(** The three sample pull requests are reviewed after 120, 150 and 200
    hours: the average of 156 hours and 40 minutes is reported as 156. *)
Lemma rounded_per_item_truncated_at_aggregation_witness :
  exists m,
    @AnalyzePullRequests amd64 2 (sampleClient [] scenarioTimeline [deployC2])
      [PR3; PR2; PR1] = Returns m /\
    AverageReviewTime m = Z.quot (120 + 150 + 200) 3 /\
    AverageReviewTime m = 156.
Proof.
  pose proof (@rounded_per_item_truncated_at_aggregation amd64 2
                (sampleClient [] scenarioTimeline [deployC2]) [PR3; PR2; PR1]) as H.
  destruct (forEach _ [PR3; PR2; PR1]) as [prStats|f] eqn:Hstats.
  - destruct (H prStats eq_refl) as (_ & Hprod & Hagg).
    assert (reviewedStats prStats <> []) as Hne
      by (vm_compute in Hstats; injection Hstats as <-; discriminate).
    destruct (Hprod Hne) as [m Hm]. exists m. split; [exact Hm|].
    destruct (Hagg m Hm) as (Havg & _).
    vm_compute in Hstats. injection Hstats as <-.
    rewrite Havg. split; reflexivity.
  - vm_compute in Hstats. discriminate Hstats.
Defined.

(** C8 as stated fails on two reviewed items of 2 and 3 hours: the exact
    average and median are 5/2 hours, and 2 is reported for both. *)
Lemma aggregation_truncates_counterexample :
  ~ noRoundingAtAggregation [reviewedIn (2 * Hour); reviewedIn (3 * Hour)].
Proof.
  intros H.
  destruct (H amd64 2
              {| AverageReviewTime := 2; MedianReviewTime := 2; MedianTimeToMerge := 10;
                 MedianLeadTimeForChanges := minInt64; TotalPullRequests := 2;
                 PullRequestsWithoutIssue := 0; PullRequestsWithReview := 2 |})
    as [Havg _]; [vm_compute; reflexivity|].
  vm_compute in Havg. discriminate Havg.
Qed.

(** ** The pull request selector *)

(** The test [weeksAgo >= 2] on a merged pull request is the test that
    it is past the boundary of the window. *)
Lemma pastBoundary_test now p :
  IsZero (PullRequest.GetMergedAt p) = false ->
  Qle_bool (inject_Z 2) (weeksAgo now (PullRequest.GetMergedAt p)) = pastBoundary now p.
Proof.
  intros Hz. rewrite weeksAgo_test. unfold pastBoundary, hasMergeTime. rewrite Hz. simpl.
  fold twoWeeks.
  pose proof (Sub_le_bound now (PullRequest.GetMergedAt p) twoWeeks) as Hb.
  destruct (Z.leb_spec twoWeeks (Sub now (PullRequest.GetMergedAt p))),
           (Z.leb_spec (PullRequest.GetMergedAt p) (now - twoWeeks));
    try reflexivity; exfalso;
    assert (minDuration < twoWeeks <= maxDuration) as Hr by (by vm_compute);
    specialize (Hb Hr); lia.
Qed.

Lemma pastBoundary_hasMergeTime now p : pastBoundary now p = true -> hasMergeTime p = true.
Proof. unfold pastBoundary. by intros [? _]%andb_prop. Qed.

(** The loop over one page: it keeps the merged pull requests listed
    before the first one past the boundary, and returns at that one. *)
Lemma scanPage_spec now page acc :
  scanPage now acc page
  = (acc ++ List.filter hasMergeTime (beforeBoundary now page),
     existsb (pastBoundary now) page).
Proof.
  revert acc. induction page as [|p page IH]; intros acc; simpl.
  - by rewrite app_nil_r.
  - destruct (IsZero (PullRequest.GetMergedAt p)) eqn:Hz.
    + assert (hasMergeTime p = false) as Hm by (unfold hasMergeTime; by rewrite Hz).
      assert (pastBoundary now p = false) as -> by (unfold pastBoundary; by rewrite Hm).
      simpl. rewrite Hm. apply IH.
    + rewrite pastBoundary_test by done.
      assert (hasMergeTime p = true) as Hm by (unfold hasMergeTime; by rewrite Hz).
      destruct (pastBoundary now p); simpl.
      * by rewrite app_nil_r.
      * rewrite Hm, IH, <- app_assoc. done.
Qed.

Lemma beforeBoundary_app now l1 l2 :
  beforeBoundary now (l1 ++ l2)
  = if existsb (pastBoundary now) l1 then beforeBoundary now l1
    else l1 ++ beforeBoundary now l2.
Proof.
  induction l1 as [|p l1 IH]; simpl; [done|].
  destruct (pastBoundary now p); simpl; [done|].
  rewrite IH. by destruct (existsb (pastBoundary now) l1).
Qed.

Lemma beforeBoundary_all now l :
  existsb (pastBoundary now) l = false -> beforeBoundary now l = l.
Proof.
  induction l as [|p l IH]; simpl; [done|].
  destruct (pastBoundary now p); simpl; [done|]. intros H. by rewrite IH.
Qed.

Lemma pagesToBoundary_pos now pages : pages <> [] -> (1 <= pagesToBoundary now pages)%nat.
Proof. destruct pages as [|page rest]; [done|]. simpl. case_match; lia. Qed.

(** With enough fuel, the selection loop over a served source requests
    the pages up to the first that crosses the boundary, and returns the
    merged pull requests listed before the boundary. *)
Lemma selectLoop_served request pages now :
  (forall page, request page = servePages pages page) ->
  forall fuel page acc requested,
    (1 <= fuel)%nat -> (length pages - Nat.pred page <= fuel)%nat ->
    selectLoop fuel request now page acc requested
    = (requested
         ++ pageNumbers page (Nat.max 1 (pagesToBoundary now (drop (Nat.pred page) pages))),
       Returns (acc ++ List.filter hasMergeTime
                         (beforeBoundary now (concat (drop (Nat.pred page) pages))))).
Proof.
  intros Hserve. induction fuel as [|fuel IH]; intros page acc requested H1 Hlen; [lia|].
  simpl. rewrite Hserve. unfold servePages. simpl.
  set (i := Nat.pred page) in *.
  rewrite scanPage_spec.
  rewrite (drop_pages pages i), beforeBoundary_app.
  rewrite nth_lookup.
  destruct (pages !! i) as [pg|] eqn:Hi; simpl.
  - rewrite (drop_S _ _ _ Hi). simpl.
    destruct (existsb (pastBoundary now) pg) eqn:Hstop.
    { simpl. reflexivity. }
    simpl. rewrite (beforeBoundary_all now pg Hstop).
    apply lookup_lt_Some in Hi.
    destruct (Nat.ltb_spec (S i) (length pages)) as [Hlt|Hge]; simpl.
    + rewrite IH by (simpl; lia). simpl. fold i.
      rewrite List.filter_app, <- !app_assoc.
      assert (1 <= pagesToBoundary now (drop (S i) pages))%nat as Hpos.
      { apply pagesToBoundary_pos. intros Hnil.
        apply (f_equal length) in Hnil. rewrite length_drop in Hnil. simpl in Hnil. lia. }
      rewrite Nat.max_r by lia.
      destruct (pagesToBoundary now (drop (S i) pages)) as [|k]; [lia|]. simpl.
      replace (i + 2)%nat with (S (S i)) by lia. simpl.
      replace (S (i + 2)) with (S (S (S i))) by lia. reflexivity.
    + rewrite (drop_ge pages (S i)) by lia. simpl. rewrite app_nil_r. reflexivity.
  - apply lookup_ge_None in Hi.
    rewrite (drop_ge pages i), (drop_ge pages (S i)) by lia. simpl.
    destruct (Nat.ltb_spec (S i) (length pages)) as [Hlt|Hge]; [lia|]. simpl. reflexivity.
Qed.

(** In a source ordered by merge recency, the merged pull requests listed
    before the first one past the boundary are those merged within the
    window. *)
Lemma beforeBoundary_ordered now prs :
  orderedByMergeRecency prs ->
  List.filter hasMergeTime (beforeBoundary now prs)
  = List.filter (mergedWithinWindow now) prs.
Proof.
  unfold orderedByMergeRecency.
  induction prs as [|p prs IH]; simpl; [done|].
  unfold pastBoundary, mergedWithinWindow at 1.
  destruct (hasMergeTime p) eqn:Hm; simpl.
  - intros Hsorted. apply StronglySorted_cons in Hsorted as [Hall Hsorted].
    destruct (Z.leb_spec (PullRequest.GetMergedAt p) (now - twoWeeks)) as [Hpast|Hin].
    + assert ((now - twoWeeks <? PullRequest.GetMergedAt p) = false) as -> by lia.
      symmetry. clear IH Hsorted.
      induction prs as [|q prs IHq]; simpl in *; [done|].
      unfold mergedWithinWindow at 1.
      destruct (hasMergeTime q) eqn:Hq; simpl.
      * apply Forall_cons in Hall as [Hqp Hall].
        assert ((now - twoWeeks <? PullRequest.GetMergedAt q) = false) as -> by lia.
        by apply IHq.
      * by apply IHq.
    + assert ((now - twoWeeks <? PullRequest.GetMergedAt p) = true) as -> by lia.
      simpl. rewrite Hm. f_equal. by apply IH.
  - intros Hsorted. rewrite Hm. by apply IH.
Qed.

(** C5.  Over a paginated source of closed pull requests, with enough
    fuel for its pages, the selector requests the pages up to and
    including the first that lists a merged pull request at or past the
    boundary of the window, and no page after it; it returns, in source
    order, the pull requests with a merge time listed before that pull
    request.  When the source is ordered by merge recency these are
    exactly the pull requests merged within the window. *)
Theorem selector_window fuel ghClient now pages :
  (forall page, PullRequests_List ghClient page = servePages pages page) ->
  fuelFor pages fuel ->
  getPullRequestsFromLastTwoWeeks fuel ghClient now
  = (pageNumbers 0 (Nat.max 1 (pagesToBoundary now pages)),
     Returns (List.filter hasMergeTime (beforeBoundary now (concat pages))))
  /\ (orderedByMergeRecency (concat pages) ->
      getPullRequestsFromLastTwoWeeks fuel ghClient now
      = (pageNumbers 0 (Nat.max 1 (pagesToBoundary now pages)),
         Returns (List.filter (mergedWithinWindow now) (concat pages)))).
Proof.
  intros Hserve [H1 Hlen].
  assert (getPullRequestsFromLastTwoWeeks fuel ghClient now
          = (pageNumbers 0 (Nat.max 1 (pagesToBoundary now pages)),
             Returns (List.filter hasMergeTime (beforeBoundary now (concat pages))))) as Hrun.
  { unfold getPullRequestsFromLastTwoWeeks.
    rewrite (selectLoop_served _ pages now Hserve) by (simpl; lia). reflexivity. }
  split; [exact Hrun|].
  intros Hordered. rewrite Hrun. by rewrite beforeBoundary_ordered.
Qed.

(** At hour 600 the window starts after hour 264.  The first page lists
    two merged pull requests in the window and one that is not merged;
    on the second page the pull request merged at hour 264 stops the
    selection, and the third page is not requested. *)
Lemma selector_window_witness :
  getPullRequestsFromLastTwoWeeks 3 (sampleClient closedPulls [] []) (600 * Hour)
  = ([0; 2]%nat,
     Returns [ samplePR 15 "C15" "feature/JIRA-15" (500 * Hour) (590 * Hour);
               samplePR 13 "C13" "feature/JIRA-13" (300 * Hour) (400 * Hour);
               samplePR 12 "C12" "feature/JIRA-12" (250 * Hour) (265 * Hour) ]).
Proof.
  destruct (selector_window 3 (sampleClient closedPulls [] []) (600 * Hour) closedPulls)
    as [_ Hordered].
  - intros page. reflexivity.
  - split; simpl; lia.
  - rewrite Hordered; [reflexivity|].
    unfold orderedByMergeRecency. simpl.
    repeat (constructor; [|repeat constructor; vm_compute; discriminate]). constructor.
Defined.


(** * Further properties of the program *)

(** ** The selector against any client *)

Lemma beforeBoundary_not_past now prs p :
  p ∈ beforeBoundary now prs -> pastBoundary now p = false.
Proof.
  induction prs as [|q prs IH]; simpl; [by intros ?%not_elem_of_nil|].
  destruct (pastBoundary now q) eqn:Hq; [by intros ?%not_elem_of_nil|].
  intros [->|Hp]%elem_of_cons; [done|by apply IH].
Qed.

Lemma within_window_iff now p :
  mergedWithinWindow now p = true <-> hasMergeTime p = true /\ pastBoundary now p = false.
Proof.
  unfold mergedWithinWindow, pastBoundary.
  destruct (hasMergeTime p); simpl; [|by split; [|intros [? _]]].
  destruct (Z.ltb_spec (now - twoWeeks) (PullRequest.GetMergedAt p)),
           (Z.leb_spec (PullRequest.GetMergedAt p) (now - twoWeeks)); try lia;
    split; try done; by intros [_ ?].
Qed.

Lemma scanPage_within now page acc :
  Forall (fun p => mergedWithinWindow now p = true) acc ->
  Forall (fun p => mergedWithinWindow now p = true) (fst (scanPage now acc page)).
Proof.
  intros Hacc. rewrite scanPage_spec. simpl. apply Forall_app. split; [done|].
  apply Forall_forall. intros p Hp.
  apply list_elem_of_In, List.filter_In in Hp as [Hp Hm].
  apply within_window_iff. split; [done|].
  eapply beforeBoundary_not_past. apply list_elem_of_In, Hp.
Qed.

Lemma selectLoop_within request now fuel page acc requested log prs :
  Forall (fun p => mergedWithinWindow now p = true) acc ->
  selectLoop fuel request now page acc requested = (log, Returns prs) ->
  Forall (fun p => mergedWithinWindow now p = true) prs.
Proof.
  revert page acc requested. induction fuel as [|fuel IH]; intros page acc requested Hacc;
    simpl; [done|].
  destruct (request page) as [[items resp]|]; [|done].
  pose proof (scanPage_within now items acc Hacc) as Hscan.
  destruct (scanPage now acc items) as [acc' returned]. simpl in Hscan.
  destruct returned; [by intros [= _ <-]|].
  destruct (NextPage resp =? 0)%nat; [by intros [= _ <-]|].
  by apply IH.
Qed.

(** X1.  Whatever the client answers, every pull request the selector
    returns has a merge time, and that time is later than [now] less two
    weeks. *)
Theorem selector_returns_only_window fuel ghClient now log prs :
  getPullRequestsFromLastTwoWeeks fuel ghClient now = (log, Returns prs) ->
  Forall (fun p => hasMergeTime p = true /\
                   now - twoWeeks < PullRequest.GetMergedAt p) prs.
Proof.
  intros Hrun. apply selectLoop_within in Hrun; [|constructor].
  eapply Forall_impl; [exact Hrun|]. intros p Hp. simpl in Hp.
  unfold mergedWithinWindow in Hp. apply andb_prop in Hp as [Hm Hw]. split; [done|lia].
Qed.

Lemma selector_returns_only_window_witness :
  Forall (fun p => hasMergeTime p = true /\
                   600 * Hour - twoWeeks < PullRequest.GetMergedAt p)
    [ samplePR 15 "C15" "feature/JIRA-15" (500 * Hour) (590 * Hour);
      samplePR 13 "C13" "feature/JIRA-13" (300 * Hour) (400 * Hour);
      samplePR 12 "C12" "feature/JIRA-12" (250 * Hour) (265 * Hour) ].
Proof.
  apply (selector_returns_only_window 3 (sampleClient closedPulls [] []) (600 * Hour)
           [0; 2]%nat).
  vm_compute. reflexivity.
Defined.

Lemma selectLoop_log_incl request now fuel page acc requested x :
  x ∈ requested -> x ∈ fst (selectLoop fuel request now page acc requested).
Proof.
  revert page acc requested. induction fuel as [|fuel IH]; intros page acc requested Hx;
    simpl; [done|].
  assert (x ∈ requested ++ [page]) as Hx' by (apply elem_of_app; by left).
  destruct (request page) as [[items resp]|]; [|done].
  destruct (scanPage now acc items) as [acc' returned].
  destruct returned; [done|].
  destruct (NextPage resp =? 0)%nat; [done|]. by apply IH.
Qed.

Lemma selectLoop_log_page request now fuel page acc requested :
  page ∈ fst (selectLoop (S fuel) request now page acc requested).
Proof.
  simpl.
  assert (page ∈ requested ++ [page]) as Hp by (apply elem_of_app; right; left).
  destruct (request page) as [[items resp]|]; [|done].
  destruct (scanPage now acc items) as [acc' returned].
  destruct returned; [done|].
  destruct (NextPage resp =? 0)%nat; [done|]. by apply selectLoop_log_incl.
Qed.

Lemma selectLoop_agree r1 r2 now fuel page acc requested :
  (forall p, p ∈ fst (selectLoop fuel r1 now page acc requested) -> r1 p = r2 p) ->
  selectLoop fuel r2 now page acc requested = selectLoop fuel r1 now page acc requested.
Proof.
  revert page acc requested. induction fuel as [|fuel IH]; intros page acc requested Hagree;
    [done|].
  pose proof (Hagree page (selectLoop_log_page r1 now fuel page acc requested)) as Hpage.
  simpl in *. rewrite <- Hpage.
  destruct (r1 page) as [[items resp]|]; [|done].
  destruct (scanPage now acc items) as [acc' returned].
  destruct returned; [done|].
  destruct (NextPage resp =? 0)%nat; [done|]. by apply IH.
Qed.

(** X2.  The early stop makes the selector independent of everything
    listed after the boundary-crossing page.  Let the client answer as the
    paginated source [pages] on the pages up to and including the first
    one that lists a pull request past the boundary, and answer anything
    on every other page: fail, name a next page for ever, or list other
    pull requests.  Then the selector requests those pages only and
    returns the pull requests with a merge time listed before the first
    one past the boundary, which for a source ordered by merge recency
    are exactly those merged within the window. *)
Theorem selector_ignores_pages_after_boundary fuel ghClient now pages :
  fuelFor pages fuel ->
  (forall page, page ∈ pageNumbers 0 (Nat.max 1 (pagesToBoundary now pages)) ->
     PullRequests_List ghClient page = servePages pages page) ->
  getPullRequestsFromLastTwoWeeks fuel ghClient now
  = (pageNumbers 0 (Nat.max 1 (pagesToBoundary now pages)),
     Returns (List.filter hasMergeTime (beforeBoundary now (concat pages))))
  /\ (orderedByMergeRecency (concat pages) ->
      getPullRequestsFromLastTwoWeeks fuel ghClient now
      = (pageNumbers 0 (Nat.max 1 (pagesToBoundary now pages)),
         Returns (List.filter (mergedWithinWindow now) (concat pages)))).
Proof.
  intros [H1 Hlen] Hagree.
  assert (selectLoop fuel (servePages pages) now 0%nat [] []
          = (pageNumbers 0 (Nat.max 1 (pagesToBoundary now pages)),
             Returns (List.filter hasMergeTime (beforeBoundary now (concat pages)))))
    as Hserved.
  { rewrite (selectLoop_served (servePages pages) pages now) by (done || simpl; lia).
    reflexivity. }
  assert (getPullRequestsFromLastTwoWeeks fuel ghClient now
          = (pageNumbers 0 (Nat.max 1 (pagesToBoundary now pages)),
             Returns (List.filter hasMergeTime (beforeBoundary now (concat pages))))) as Hrun.
  { unfold getPullRequestsFromLastTwoWeeks. rewrite <- Hserved.
    apply selectLoop_agree. rewrite Hserved. simpl.
    intros page Hpage. symmetry. by apply Hagree. }
  split; [exact Hrun|].
  intros Hordered. rewrite Hrun. by rewrite beforeBoundary_ordered.
Qed.

(** The failing client answers the first two pages of [closedPulls], of
    which the second crosses the boundary, and fails on the third: the
    selector returns the three pull requests of the window. *)
Lemma selector_ignores_pages_after_boundary_witness :
  getPullRequestsFromLastTwoWeeks 3 failingClient (600 * Hour)
  = ([0; 2]%nat,
     Returns [samplePR 15 "C15" "feature/JIRA-15" (500 * Hour) (590 * Hour);
              samplePR 13 "C13" "feature/JIRA-13" (300 * Hour) (400 * Hour);
              samplePR 12 "C12" "feature/JIRA-12" (250 * Hour) (265 * Hour)]).
Proof.
  destruct (selector_ignores_pages_after_boundary 3 failingClient (600 * Hour) closedPulls)
    as [Hrun _].
  - split; simpl; lia.
  - intros page Hpage.
    assert (pageNumbers 0 (Nat.max 1 (pagesToBoundary (600 * Hour) closedPulls))
            = [0; 2]%nat) as Hlog by (vm_compute; reflexivity).
    rewrite Hlog in Hpage.
    apply elem_of_cons in Hpage as [->|Hpage]; [reflexivity|].
    apply list_elem_of_singleton in Hpage as ->. reflexivity.
  - rewrite Hrun. vm_compute. reflexivity.
Defined.

Lemma selectLoop_requests_answered request now fuel page acc requested log prs :
  Forall (fun p => is_Some (request p)) requested ->
  selectLoop fuel request now page acc requested = (log, Returns prs) ->
  Forall (fun p => is_Some (request p)) log.
Proof.
  revert page acc requested. induction fuel as [|fuel IH]; intros page acc requested Hreq;
    simpl; [done|].
  destruct (request page) as [[items resp]|] eqn:Hpage; [|done].
  assert (Forall (fun p => is_Some (request p)) (requested ++ [page])) as Hreq'.
  { apply Forall_app. split; [done|]. constructor; [by rewrite Hpage|constructor]. }
  destruct (scanPage now acc items) as [acc' returned].
  destruct returned; [by intros [= <- _]|].
  destruct (NextPage resp =? 0)%nat; [by intros [= <- _]|].
  by apply IH.
Qed.

(** X3.  No partial result: when the selector returns pull requests,
    every page it requested was answered without error; and an error on
    the first page is fatal. *)
Theorem selector_no_partial_result fuel ghClient now :
  (forall log prs,
     getPullRequestsFromLastTwoWeeks fuel ghClient now = (log, Returns prs) ->
     log <> [] /\ Forall (fun page => is_Some (PullRequests_List ghClient page)) log)
  /\ (PullRequests_List ghClient 0%nat = None -> (1 <= fuel)%nat ->
      getPullRequestsFromLastTwoWeeks fuel ghClient now = ([0%nat], Aborts FatalError)).
Proof.
  split.
  - intros log prs Hrun. split.
    + destruct fuel as [|fuel]; [done|].
      pose proof (selectLoop_log_page (PullRequests_List ghClient) now fuel 0 [] []) as Hin.
      unfold getPullRequestsFromLastTwoWeeks in Hrun. rewrite Hrun in Hin. simpl in Hin.
      intros ->. by apply not_elem_of_nil in Hin.
    + eapply selectLoop_requests_answered; [|exact Hrun]. constructor.
  - intros Herr Hfuel. destruct fuel as [|fuel]; [lia|].
    unfold getPullRequestsFromLastTwoWeeks. simpl. by rewrite Herr.
Qed.

Lemma selector_no_partial_result_witness :
  Forall (fun page => is_Some (PullRequests_List failingClient page)) [0; 2]%nat.
Proof.
  destruct (selector_no_partial_result 3 failingClient (600 * Hour)) as [Hok _].
  destruct (Hok [0; 2]%nat
              [ samplePR 15 "C15" "feature/JIRA-15" (500 * Hour) (590 * Hour);
                samplePR 13 "C13" "feature/JIRA-13" (300 * Hour) (400 * Hour);
                samplePR 12 "C12" "feature/JIRA-12" (250 * Hour) (265 * Hour) ])
    as [_ Hall]; [vm_compute; reflexivity|exact Hall].
Defined.


(** ** The retrieval loop and the scan *)

Lemma timelineLoop_endless request :
  (forall page, exists items next,
     request page = Some (items, {| NextPage := next |}) /\ next <> 0%nat) ->
  forall fuel page allEvents,
    timelineLoop fuel request page allEvents = Aborts OutOfFuel.
Proof.
  intros Hnext. induction fuel as [|fuel IH]; intros page allEvents; simpl; [done|].
  destruct (Hnext page) as (items & next & -> & Hne). simpl.
  destruct (Nat.eqb_spec next 0); [done|]. apply IH.
Qed.

(** X4.  The retrieval loop of the timeline ends only on a response
    whose [NextPage] is 0 (or on an error): against a client whose
    responses always name a next page, no number of unrollings makes
    [getAllTimelineEventsForPullRequest] return. *)
Theorem timeline_retrieval_unbounded `{rt : GoRuntime} ghClient pr number :
  PullRequest.Number pr = Some number ->
  (forall page, exists items next,
     Issues_ListIssueTimeline ghClient number page = Some (items, {| NextPage := next |})
     /\ next <> 0%nat) ->
  forall fuel, getAllTimelineEventsForPullRequest fuel ghClient pr = Aborts OutOfFuel.
Proof.
  intros Hnumber Hnext fuel. unfold getAllTimelineEventsForPullRequest.
  rewrite Hnumber. simpl. by rewrite timelineLoop_endless.
Qed.

Lemma timeline_retrieval_unbounded_witness :
  @getAllTimelineEventsForPullRequest amd64 1000 endlessClient scenarioPR
  = Aborts OutOfFuel.
Proof.
  apply (@timeline_retrieval_unbounded amd64 endlessClient scenarioPR 7).
  - reflexivity.
  - intros page. exists [commitEvent], (S page). split; [reflexivity|discriminate].
Defined.

Lemma isReviewed_not_requested e : isReviewed e = true -> isReviewRequested e = false.
Proof.
  unfold isReviewed, isReviewRequested. intros Hr%String.eqb_eq. rewrite Hr. reflexivity.
Qed.

(** The scan, from a state in which no review was found yet. *)
Lemma scanTimeline_spec events st :
  IsZero (timeReviewed st) = true ->
  scanTimeline events st
  = {| timeReviewRequested :=
         if isFirstReview st
         then match List.find isReviewRequested (beforeFirstReview events) with
              | Some e => Timeline.GetCreatedAt e
              | None => timeReviewRequested st
              end
         else timeReviewRequested st;
       isFirstReview :=
         isFirstReview st && negb (existsb isReviewRequested (beforeFirstReview events));
       wasReviewed := wasReviewed st || existsb isReviewed events;
       timeReviewed :=
         match List.find isReviewed events with
         | Some e => Timeline.GetSubmittedAt e
         | None => timeReviewed st
         end |}.
Proof.
  revert st. induction events as [|e events IH]; intros st Hz.
  - destruct st as [trr first was tr]. simpl.
    by rewrite andb_true_r, orb_false_r, Tauto.if_same.
  - simpl. fold (isReviewRequested e). fold (isReviewed e).
    destruct (isReviewed e) eqn:Hrev.
    + rewrite (isReviewed_not_requested e Hrev), andb_false_r, Hz. simpl.
      rewrite andb_true_r, orb_true_r. destruct st as [trr first was tr]. simpl.
      by rewrite Tauto.if_same.
    + rewrite andb_false_r.
      destruct st as [trr first was tr]. simpl in *.
      destruct first; simpl.
      * destruct (isReviewRequested e) eqn:Hreq; simpl.
        -- rewrite IH by done. simpl. reflexivity.
        -- rewrite IH by done. simpl. reflexivity.
      * rewrite IH by done. simpl. reflexivity.
Qed.

(** The scan from its initial state. *)
Lemma reconstruct_unfold pr events :
  reconstruct pr events
  = {| timeReviewRequested :=
         match List.find isReviewRequested (beforeFirstReview events) with
         | Some e => Timeline.GetCreatedAt e
         | None => PullRequest.GetCreatedAt pr
         end;
       isFirstReview := negb (existsb isReviewRequested (beforeFirstReview events));
       wasReviewed := existsb isReviewed events;
       timeReviewed :=
         match List.find isReviewed events with
         | Some e => Timeline.GetSubmittedAt e
         | None => zeroTime
         end |}.
Proof. unfold reconstruct. by rewrite scanTimeline_spec. Qed.

(** X5.  The scan as a function of the events in scan order: the review
    found is the first reviewed event, with its submission time; the
    request time is the creation time of the first review_requested event
    listed before that reviewed event, and the creation date of the pull
    request when there is none; the events after the first reviewed event
    are not read, so that any others in their place give the same
    result. *)
Theorem scan_stops_at_first_review pr events :
  reconstruct pr events
  = {| timeReviewRequested :=
         match List.find isReviewRequested (beforeFirstReview events) with
         | Some e => Timeline.GetCreatedAt e
         | None => PullRequest.GetCreatedAt pr
         end;
       isFirstReview := negb (existsb isReviewRequested (beforeFirstReview events));
       wasReviewed := existsb isReviewed events;
       timeReviewed :=
         match List.find isReviewed events with
         | Some e => Timeline.GetSubmittedAt e
         | None => zeroTime
         end |}
  /\ forall before r after after',
       events = before ++ r :: after -> isReviewed r = true ->
       reconstruct pr (before ++ r :: after') = reconstruct pr events.
Proof.
  split; [apply reconstruct_unfold|].
  intros before r after after' -> Hr. rewrite !reconstruct_unfold.
  assert (forall tail, List.find isReviewed (before ++ r :: tail)
                       = List.find isReviewed (before ++ [r])
                       /\ existsb isReviewed (before ++ r :: tail) = true
                       /\ beforeFirstReview (before ++ r :: tail)
                          = beforeFirstReview (before ++ [r])) as Htail.
  { intros tail. induction before as [|e before IH]; simpl.
    - by rewrite Hr.
    - destruct (isReviewed e); [done|]. simpl. destruct IH as (-> & -> & ->). done. }
  destruct (Htail after) as (-> & -> & ->). destruct (Htail after') as (-> & -> & ->).
  reflexivity.
Qed.

Lemma find_first_split {A} (f : A -> bool) l x :
  List.find f l = Some x ->
  exists before after, l = before ++ x :: after /\ f x = true /\
    Forall (fun y => f y = false) before.
Proof.
  induction l as [|y l IH]; simpl; [done|].
  destruct (f y) eqn:Hy.
  - intros [= ->]. exists [], l. split; [done|]. split; [done|constructor].
  - intros Hfind. destruct (IH Hfind) as (before & after & -> & Hx & Hbefore).
    exists (y :: before), after. split; [done|]. split; [done|by constructor].
Qed.

Lemma find_none_iff {A} (f : A -> bool) l :
  List.find f l = None <-> forall y, y ∈ l -> f y = false.
Proof.
  induction l as [|y l IH]; simpl.
  - split; [by intros _ ? ?%not_elem_of_nil|done].
  - destruct (f y) eqn:Hy.
    + split; [done|]. intros H. specialize (H y (list_elem_of_here _ _)). congruence.
    + rewrite IH. split.
      * intros H z [->|Hz]%elem_of_cons; [done|by apply H].
      * intros H z Hz. apply H. by right.
Qed.

Lemma beforeFirstReview_split before r after :
  isReviewed r = true -> Forall (fun y => isReviewed y = false) before ->
  beforeFirstReview (before ++ r :: after) = before.
Proof.
  intros Hr. induction 1 as [|y before Hy _ IH]; simpl; [by rewrite Hr|].
  by rewrite Hy, IH.
Qed.

(** The sorted events of a timeline with a review: the first reviewed
    event, the events before it, none of them reviewed and none earlier
    than it, and the events after it, none later than it. *)
Lemma sorted_timeline_split `{rt : GoRuntime} (Hrt : SortSliceSpec rt) events r :
  List.find isReviewed (sortSlice lessTimeline events) = Some r ->
  exists before after,
    sortSlice lessTimeline events = before ++ r :: after /\
    isReviewed r = true /\
    beforeFirstReview (sortSlice lessTimeline events) = before /\
    Forall (fun y => isReviewed y = false /\ effectiveTime r <= effectiveTime y) before /\
    Forall (fun y => effectiveTime y <= effectiveTime r) after.
Proof.
  intros Hfind. destruct (find_first_split _ _ _ Hfind) as (before & after & Hl & Hr & Hb).
  exists before, after. split; [done|]. split; [done|].
  split; [rewrite Hl; by apply beforeFirstReview_split|].
  pose proof (effectiveTime_sorted Hrt events) as Hsorted. rewrite Hl in Hsorted.
  apply StronglySorted_app in Hsorted as (Hcross & _ & Hright).
  apply StronglySorted_cons in Hright as [Hafter _].
  split; [|done].
  apply Forall_forall. intros y Hy. split.
  - rewrite Forall_forall in Hb. by apply Hb.
  - apply (Hcross y r Hy). left.
Qed.

(** X6.  A pull request is flagged as reviewed exactly when its timeline
    has a reviewed event, and the review taken is then one that no other
    review follows: the review time found by the scan of the retrieved
    events is the submission time of a reviewed event [r] of greatest
    effective time, and [TimeToReview] is the rounded time from the
    request time found by that scan to the submission of [r].  When the
    reviewed events carry no creation time, as reviews do, no review was
    submitted later than [r]: the latest review is taken, not the
    first. *)
Theorem review_taken_is_latest `{rt : GoRuntime} (Hrt : SortSliceSpec rt)
    fuel ghClient pr pages deployTimes :
  timelineServed ghClient pr pages -> fuelFor pages fuel -> hasBranchLabel pr ->
  exists stat events,
    processPullRequest fuel ghClient pr deployTimes = Returns stat /\
    getAllTimelineEventsForPullRequest fuel ghClient pr = Returns events /\
    (WasReviewed stat = true <-> exists e, e ∈ concat pages /\ isReviewed e = true) /\
    (WasReviewed stat = true ->
     exists r,
       r ∈ concat pages /\ isReviewed r = true /\
       (forall e, e ∈ concat pages -> isReviewed e = true ->
          effectiveTime e <= effectiveTime r) /\
       timeReviewed (reconstruct pr events) = Timeline.GetSubmittedAt r /\
       TimeToReview stat
       = Round (Sub (Timeline.GetSubmittedAt r)
                    (timeReviewRequested (reconstruct pr events))) Hour /\
       ((forall e, e ∈ concat pages -> isReviewed e = true ->
           IsZero (Timeline.GetCreatedAt e) = true) ->
        forall e, e ∈ concat pages -> isReviewed e = true ->
          Timeline.GetSubmittedAt e <= Timeline.GetSubmittedAt r)).
Proof.
  intros Hserved Hfuel Hlabel.
  destruct (processPullRequest_served fuel ghClient pr pages deployTimes
              Hserved Hfuel Hlabel) as (stat & label & Hret & Hstat).
  simpl in Hstat. destruct Hstat as (_ & _ & Hreview & _ & _ & Hwas & _).
  exists stat, (sortSlice lessTimeline (concat pages)).
  split; [exact Hret|]. split; [by apply getAllTimelineEvents_served|].
  pose proof (sortSlice_perm rt Hrt _ lessTimeline (concat pages)) as Hperm.
  assert (timeReviewed (reconstruct pr (sortSlice lessTimeline (concat pages)))
          = match List.find isReviewed (sortSlice lessTimeline (concat pages)) with
            | Some e => Timeline.GetSubmittedAt e
            | None => zeroTime
            end) as Htaken by (by rewrite reconstruct_unfold).
  assert (wasReviewed (reconstruct pr (sortSlice lessTimeline (concat pages)))
          = existsb isReviewed (sortSlice lessTimeline (concat pages))) as Hflag
    by (by rewrite reconstruct_unfold).
  rewrite Hflag in Hwas. rewrite Htaken in Hreview |- *.
  split.
  - rewrite Hwas, existsb_exists. split.
    + intros (e & He & Hrev). exists e. split; [|done].
      rewrite <- Hperm. by apply list_elem_of_In.
    + intros (e & He & Hrev). exists e. split; [|done].
      apply list_elem_of_In. by rewrite Hperm.
  - intros Htrue. rewrite Hwas in Htrue.
    destruct (List.find isReviewed (sortSlice lessTimeline (concat pages))) as [r|] eqn:Hfind.
    + destruct (sorted_timeline_split Hrt _ _ Hfind)
        as (before & after & Hl & Hr & _ & Hbefore & Hafter).
      assert (forall e, e ∈ concat pages -> isReviewed e = true ->
                effectiveTime e <= effectiveTime r) as Hlatest.
      { intros e He Hrev. rewrite <- Hperm, Hl in He.
        apply elem_of_app in He as [He|He].
        - rewrite Forall_forall in Hbefore. destruct (Hbefore e He). congruence.
        - apply elem_of_cons in He as [->|He]; [lia|].
          rewrite Forall_forall in Hafter. by apply Hafter. }
      assert (r ∈ concat pages) as Hin
        by (rewrite <- Hperm, Hl; apply elem_of_app; right; left).
      exists r. repeat split; try done.
      intros Hnocreation e He Hrev.
      pose proof (Hlatest e He Hrev) as Hle. unfold effectiveTime in Hle.
      by rewrite (Hnocreation e He Hrev), (Hnocreation r Hin Hr) in Hle.
    + pose proof (proj1 (find_none_iff _ _) Hfind) as Hnone.
      apply existsb_exists in Htrue as (e & He & Hrev).
      rewrite Hnone in Hrev; [done|by apply list_elem_of_In].
Qed.

(** Two reviews, at hours 250 and 300, after a request at hour 200 for a
    pull request created at hour 100: the review of hour 300 is taken. *)
Lemma review_taken_is_latest_witness :
  exists stat,
    @processPullRequest amd64 1
      (sampleClient []
         [[reviewRequestedAt (200 * Hour); reviewedAt (250 * Hour); reviewedAt (300 * Hour)]]
         []) scenarioPR ∅ = Returns stat /\
    WasReviewed stat = true /\ TimeToReview stat = 200 * Hour.
Proof.
  destruct (@review_taken_is_latest amd64 amd64_sortSlice 1
              (sampleClient []
                 [[reviewRequestedAt (200 * Hour); reviewedAt (250 * Hour);
                   reviewedAt (300 * Hour)]] [])
              scenarioPR
              [[reviewRequestedAt (200 * Hour); reviewedAt (250 * Hour);
                reviewedAt (300 * Hour)]] ∅)
    as (stat & events & Hret & _ & Hiff & _).
  - exists 7. split; [reflexivity|]. intros page. reflexivity.
  - split; simpl; lia.
  - by exists {| PullRequestBranch.Label := Some "feature/JIRA-7"%string |},
              "feature/JIRA-7"%string.
  - exists stat. split; [exact Hret|]. split.
    + apply Hiff. exists (reviewedAt (250 * Hour)). split; [|reflexivity].
      simpl. right. left.
    + vm_compute in Hret. injection Hret as <-. reflexivity.
Defined.

(** X7.  When the timeline has a review and every review request is
    earlier than some review, no review request is read: the request time
    is the creation date of the pull request, and so are the starting
    points of [TimeToReview], [TimeToMerge] and [TimeToProduction]. *)
Theorem request_before_review_is_not_read `{rt : GoRuntime} (Hrt : SortSliceSpec rt)
    fuel ghClient pr pages deployTimes :
  timelineServed ghClient pr pages -> fuelFor pages fuel -> hasBranchLabel pr ->
  (exists r, r ∈ concat pages /\ isReviewed r = true) ->
  (forall q, q ∈ concat pages -> isReviewRequested q = true ->
     exists r, r ∈ concat pages /\ isReviewed r = true /\
       effectiveTime q < effectiveTime r) ->
  exists stat events,
    processPullRequest fuel ghClient pr deployTimes = Returns stat /\
    getAllTimelineEventsForPullRequest fuel ghClient pr = Returns events /\
    timeReviewRequested (reconstruct pr events) = PullRequest.GetCreatedAt pr /\
    TimeToMerge stat
    = Round (Sub (PullRequest.GetMergedAt pr) (PullRequest.GetCreatedAt pr)) Hour /\
    TimeToReview stat
    = Round (Sub (timeReviewed (reconstruct pr events)) (PullRequest.GetCreatedAt pr)) Hour.
Proof.
  intros Hserved Hfuel Hlabel (r0 & Hr0 & Hrev0) Hearlier.
  destruct (processPullRequest_served fuel ghClient pr pages deployTimes
              Hserved Hfuel Hlabel) as (stat & label & Hret & Hstat).
  simpl in Hstat. destruct Hstat as (_ & _ & Hreview & Hmerge & _).
  exists stat, (sortSlice lessTimeline (concat pages)).
  split; [exact Hret|]. split; [by apply getAllTimelineEvents_served|].
  pose proof (sortSlice_perm rt Hrt _ lessTimeline (concat pages)) as Hperm.
  assert (timeReviewRequested (reconstruct pr (sortSlice lessTimeline (concat pages)))
          = PullRequest.GetCreatedAt pr) as Htrr.
  { rewrite reconstruct_unfold. simpl.
    destruct (List.find isReviewed (sortSlice lessTimeline (concat pages))) as [r|] eqn:Hfind.
    - destruct (sorted_timeline_split Hrt _ _ Hfind)
        as (before & after & Hl & Hr & -> & Hbefore & Hafter).
      rewrite Forall_forall in Hbefore, Hafter.
      destruct (List.find isReviewRequested before) as [q|] eqn:Hq; [|done].
      exfalso. apply find_first_split in Hq as (b1 & b2 & Hb & Hreq & _).
      assert (q ∈ before) as Hqb by (rewrite Hb; apply elem_of_app; right; left).
      destruct (Hbefore q Hqb) as [_ Hle].
      destruct (Hearlier q) as (r' & Hr' & Hrev' & Hlt); [|done|].
      { rewrite <- Hperm, Hl. apply elem_of_app. by left. }
      rewrite <- Hperm, Hl in Hr'. apply elem_of_app in Hr' as [Hr'|Hr'].
      + destruct (Hbefore r' Hr'). congruence.
      + apply elem_of_cons in Hr' as [->|Hr']; [lia|].
        specialize (Hafter r' Hr'). lia.
    - pose proof (proj1 (find_none_iff _ _) Hfind) as Hnone.
      rewrite Hnone in Hrev0; [done|by rewrite Hperm]. }
  split; [exact Htrr|]. by rewrite Hmerge, Hreview, Htrr.
Qed.

Lemma request_before_review_is_not_read_witness :
  exists stat,
    @processPullRequest amd64 2 (sampleClient [] scenarioTimeline []) scenarioPR ∅
    = Returns stat /\
    TimeToMerge stat = 300 * Hour /\ TimeToReview stat = 200 * Hour.
Proof.
  destruct (@request_before_review_is_not_read amd64 amd64_sortSlice 2
              (sampleClient [] scenarioTimeline []) scenarioPR scenarioTimeline ∅)
    as (stat & events & Hret & Hev & Htrr & Hmerge & Hreview).
  - exists 7. split; [reflexivity|]. intros page. reflexivity.
  - split; simpl; lia.
  - by exists {| PullRequestBranch.Label := Some "feature/JIRA-7"%string |},
              "feature/JIRA-7"%string.
  - exists (reviewedAt (300 * Hour)). split; [left|reflexivity].
  - intros q Hq Hreq. exists (reviewedAt (300 * Hour)).
    split; [left|]. split; [reflexivity|].
    simpl in Hq. apply elem_of_cons in Hq as [->|Hq]; [discriminate|].
    apply elem_of_cons in Hq as [->|Hq]; [vm_compute; reflexivity|].
    apply list_elem_of_singleton in Hq as ->. discriminate.
  - exists stat. split; [exact Hret|]. split; [exact Hmerge|].
    vm_compute in Hret. injection Hret as <-. reflexivity.
Defined.


(** ** Tracking, and failures while processing *)

Lemma prefix_append a b : String.prefix a b = true <-> exists post, b = a +:+ post.
Proof.
  revert b. induction a as [|c a IH]; intros b.
  - destruct b; simpl; (split; [intros _; by eexists|done]).
  - destruct b as [|c' b]; simpl.
    + split; [done|]. by intros [post ?].
    + destruct (Ascii.ascii_dec c c') as [->|Hne].
      * rewrite IH. split; intros [post Hpost]; exists post; [by rewrite Hpost|].
        by injection Hpost.
      * split; [done|]. intros [post Hpost]. by injection Hpost.
Qed.

Lemma Contains_unfold s substr :
  Contains s substr
  = if String.prefix substr s then true
    else match s with
         | EmptyString => false
         | String _ s' => Contains s' substr
         end.
Proof. by destruct s. Qed.

(** [strings.Contains]: [substr] occurs somewhere in [s]. *)
Lemma Contains_iff s substr :
  Contains s substr = true <-> exists pre post, s = pre +:+ substr +:+ post.
Proof.
  induction s as [|c s IH]; rewrite Contains_unfold.
  - destruct (String.prefix substr "") eqn:Hp.
    + apply prefix_append in Hp as [post Hpost]. split; [|done]. intros _.
      exists "", post. exact Hpost.
    + split; [done|]. intros (pre & post & Hs). destruct pre; [|done]. simpl in Hs.
      assert (String.prefix substr "" = true) as Hp' by (apply prefix_append; by exists post).
      congruence.
  - destruct (String.prefix substr (String c s)) eqn:Hp.
    + apply prefix_append in Hp as [post Hpost]. split; [|done]. intros _.
      exists "", post. exact Hpost.
    + rewrite IH. split.
      * intros (pre & post & ->). by exists (String c pre), post.
      * intros (pre & post & Hs). destruct pre as [|c' pre]; simpl in Hs.
        -- assert (String.prefix substr (String c s) = true) as Hp'
             by (apply prefix_append; by exists post).
           congruence.
        -- injection Hs as _ ->. by exists pre, post.
Qed.

(** X8.  A pull request counts as not tracked with an issue exactly when
    the label of its head branch contains the marker "noticket" anywhere,
    not only as a prefix; without a head branch or without a label the
    check panics on the nil pointer. *)
Theorem tracked_unless_label_contains_marker pr :
  (forall head label,
     PullRequest.Head pr = Some head -> PullRequestBranch.Label head = Some label ->
     exists isTracked,
       doesPullRequestHaveIssueAttached pr = Returns isTracked /\
       (isTracked = false <->
        exists pre post, label = pre +:+ branchPrefixNoIssue +:+ post))
  /\ (PullRequest.Head pr = None \/
      (exists head, PullRequest.Head pr = Some head /\ PullRequestBranch.Label head = None) ->
      doesPullRequestHaveIssueAttached pr = Aborts NilDereference).
Proof.
  unfold doesPullRequestHaveIssueAttached. split.
  - intros head label -> Hlabel. simpl. rewrite Hlabel. simpl.
    eexists. split; [reflexivity|]. rewrite <- Contains_iff.
    by destruct (Contains label branchPrefixNoIssue).
  - intros [->|(head & -> & Hlabel)]; simpl; [done|]. by rewrite Hlabel.
Qed.

Lemma tracked_unless_label_contains_marker_witness :
  doesPullRequestHaveIssueAttached PR1 = Returns false /\
  doesPullRequestHaveIssueAttached PR2 = Returns true.
Proof.
  destruct (tracked_unless_label_contains_marker PR1) as [H1 _].
  destruct (H1 {| PullRequestBranch.Label := Some "feature/noticket-fix" |}
               "feature/noticket-fix" eq_refl eq_refl) as (b & Hb & Hiff).
  split; [|reflexivity].
  rewrite Hb. f_equal. apply Hiff. by exists "feature/", "-fix".
Defined.





(** ** More on the aggregator *)

Lemma tallyStep_same a s1 s2 : sameForAggregation s1 s2 -> tallyStep a s1 = tallyStep a s2.
Proof.
  intros (Htracked & Hrev & Hdep & Hmerge & Hreview & Hprod). unfold tallyStep.
  rewrite <- Htracked, <- Hrev, <- Hdep, <- Hmerge.
  destruct (WasReviewed s1); [rewrite <- Hreview by done|];
    (destruct (WasDeployed s1); [rewrite <- Hprod by done|]); reflexivity.
Qed.

(** X10.  The aggregation reads of each item only the three flags
    [IsTrackedWithIssue], [WasReviewed] and [WasDeployed], the time to
    merge, the time to review of a reviewed item and the time to
    production of a deployed item: batches that agree on these give the
    same outcome.  In particular [WasClosedWithoutMerge] is never read. *)
Theorem aggregate_reads_gated_fields `{rt : GoRuntime} prStats prStats' n :
  Forall2 sameForAggregation prStats prStats' ->
  aggregate prStats n = aggregate prStats' n.
Proof.
  intros Hsame. unfold aggregate.
  assert (forall a, fold_left tallyStep prStats a = fold_left tallyStep prStats' a) as ->;
    [|reflexivity].
  induction Hsame as [|s1 s2 l1 l2 Hs _ IH]; intros a; simpl; [done|].
  by rewrite (tallyStep_same a s1 s2 Hs), IH.
Qed.

Lemma aggregate_reads_gated_fields_witness :
  @aggregate amd64
    [ {| TimeToReview := 5 * Hour; TimeToMerge := 9 * Hour; TimeToProduction := 7 * Hour;
         IsTrackedWithIssue := true; WasClosedWithoutMerge := false;
         WasReviewed := true; WasDeployed := false |} ] 1
  = @aggregate amd64
      [ {| TimeToReview := 5 * Hour; TimeToMerge := 9 * Hour; TimeToProduction := minDuration;
           IsTrackedWithIssue := true; WasClosedWithoutMerge := true;
           WasReviewed := true; WasDeployed := false |} ] 1.
Proof.
  apply (@aggregate_reads_gated_fields amd64).
  constructor; [|constructor]. unfold sameForAggregation. simpl.
  repeat split; try reflexivity. discriminate.
Defined.

Lemma Median_None input : Median input = None <-> input = [].
Proof.
  unfold Median.
  rewrite (Permutation_length (insertionSort_perm Qltb input)).
  destruct input as [|x input]; simpl; [done|].
  split; [|done]. by destruct (_ =? _)%nat.
Qed.

(** X11.  In every [Metrics] produced, the counts are within bounds: the
    total is the size of the batch, at least one and at most all of its
    pull requests are counted as reviewed, and at most all as lacking an
    issue. *)
Theorem metrics_counts_bounded `{rt : GoRuntime} fuel ghClient prs m :
  AnalyzePullRequests fuel ghClient prs = Returns m ->
  TotalPullRequests m = Z.of_nat (length prs) /\
  1 <= PullRequestsWithReview m <= TotalPullRequests m /\
  0 <= PullRequestsWithoutIssue m <= TotalPullRequests m.
Proof.
  unfold AnalyzePullRequests.
  destruct (forEach _ prs) as [prStats|f] eqn:Hstats; simpl; [|done].
  intros Hagg. apply forEach_inv, Forall2_length in Hstats.
  apply aggregate_inv in Hagg as (Hne & _ & _ & _ & _ & -> & -> & ->).
  pose proof (List.filter_length_le WasReviewed prStats) as Hr.
  pose proof (List.filter_length_le (fun stat => negb (IsTrackedWithIssue stat)) prStats) as Hu.
  unfold reviewedStats in *.
  destruct (List.filter WasReviewed prStats) eqn:Hf; [done|]. simpl in *. lia.
Qed.

Lemma metrics_counts_bounded_witness :
  exists m,
    @AnalyzePullRequests amd64 2 (sampleClient [] scenarioTimeline [deployC2])
      [PR3; PR2; PR1] = Returns m /\
    TotalPullRequests m = 3 /\ PullRequestsWithReview m = 3 /\
    PullRequestsWithoutIssue m = 1.
Proof.
  pose proof (@metrics_counts_bounded amd64 2 (sampleClient [] scenarioTimeline [deployC2])
                [PR3; PR2; PR1]) as H.
  destruct (@AnalyzePullRequests amd64 2 (sampleClient [] scenarioTimeline [deployC2])
              [PR3; PR2; PR1]) as [m|f] eqn:Hret.
  - destruct (H m eq_refl) as (Htotal & _). exists m. split; [reflexivity|].
    vm_compute in Hret. injection Hret as <-. repeat split; reflexivity.
  - vm_compute in Hret. discriminate Hret.
Defined.

(** X12.  In every [Metrics] produced, the median review time and the
    median time to merge are conversions of medians that exist; the
    median lead time for changes is the conversion of a median when some
    item is deployed, and otherwise the conversion of a NaN to [int],
    which the language leaves to the implementation. *)
Theorem median_lead_time_without_deployment `{rt : GoRuntime} prStats n m :
  aggregate prStats n = Returns m ->
  (exists median,
     Median (map (fun stat => Hours (TimeToReview stat)) (reviewedStats prStats))
     = Some median /\ MedianReviewTime m = intOfFloat median)
  /\ (exists median,
        Median (map (fun stat => Hours (TimeToMerge stat)) prStats) = Some median /\
        MedianTimeToMerge m = intOfFloat median)
  /\ (deployedStats prStats = [] -> MedianLeadTimeForChanges m = intOfNaN)
  /\ (deployedStats prStats <> [] ->
      exists median,
        Median (map (fun stat => Hours (TimeToProduction stat)) (deployedStats prStats))
        = Some median /\ MedianLeadTimeForChanges m = intOfFloat median).
Proof.
  intros Hagg.
  apply aggregate_inv in Hagg as (Hne & _ & Hmr & Hmm & Hml & _).
  assert (forall (l : list Q), l <> [] -> exists median, Median l = Some median) as Hsome.
  { intros l Hl. destruct (Median l) eqn:Hm; [by eexists|].
    by apply Median_None in Hm. }
  split; [|split; [|split]].
  - destruct (Hsome (map (fun stat => Hours (TimeToReview stat)) (reviewedStats prStats)))
      as [median Hmed].
    { intros Hnil%map_eq_nil. done. }
    exists median. split; [done|]. by rewrite Hmr, Hmed.
  - destruct (Hsome (map (fun stat => Hours (TimeToMerge stat)) prStats)) as [median Hmed].
    { intros Hnil%map_eq_nil. subst prStats. done. }
    exists median. split; [done|]. by rewrite Hmm, Hmed.
  - intros Hnone. by rewrite Hml, Hnone.
  - intros Hdep.
    destruct (Hsome (map (fun stat => Hours (TimeToProduction stat)) (deployedStats prStats)))
      as [median Hmed].
    { intros Hnil%map_eq_nil. done. }
    exists median. split; [done|]. by rewrite Hml, Hmed.
Qed.

(** One reviewed item that is not deployed: on amd64 the median lead time
    is reported as the smallest [int]. *)
Lemma median_lead_time_without_deployment_witness :
  exists m,
    @aggregate amd64 [reviewedIn (2 * Hour)] 1 = Returns m /\
    MedianLeadTimeForChanges m = minInt64.
Proof.
  eexists. split; [vm_compute; reflexivity|].
  eapply (proj1 (proj2 (proj2 (@median_lead_time_without_deployment amd64
                                 [reviewedIn (2 * Hour)] 1 _ eq_refl)))).
  reflexivity.
Defined.

Lemma wrap64_add_l a b : wrap64 (wrap64 a + b) = wrap64 (a + b).
Proof. int64_bounds. Z.to_euclidean_division_equations. lia. Qed.

Lemma sumInt_perm hours hours' :
  hours ≡ₚ hours' -> forall start, sumInt hours start = sumInt hours' start.
Proof.
  unfold sumInt. induction 1 as [|h l l' _ IH|h1 h2 l|l1 l2 l3 _ IH1 _ IH2];
    intros start; simpl.
  - done.
  - apply IH.
  - f_equal. rewrite !wrap64_add_l. f_equal. lia.
  - by rewrite IH1, IH2.
Qed.

Lemma filter_perm {A} (f : A -> bool) l l' :
  l ≡ₚ l' -> List.filter f l ≡ₚ List.filter f l'.
Proof.
  induction 1 as [|x l l' _ IH|x y l|l1 l2 l3 _ IH1 _ IH2]; simpl.
  - done.
  - destruct (f x); [by constructor|done].
  - destruct (f x), (f y); try done. apply Permutation_swap.
  - by etrans.
Qed.

Lemma Qltb_asym x y : Qltb x y = true -> Qltb y x = false.
Proof.
  unfold Qltb. intros Hxy%negb_true_iff. apply negb_false_iff, Qle_bool_iff.
  destruct (Qlt_le_dec x y) as [Hlt|Hle]; [by apply Qlt_le_weak|].
  apply Qle_bool_iff in Hle. congruence.
Qed.

Lemma Qltb_negtrans x y z : Qltb x y = false -> Qltb y z = false -> Qltb x z = false.
Proof.
  unfold Qltb. intros Hxy%negb_false_iff%Qle_bool_iff Hyz%negb_false_iff%Qle_bool_iff.
  apply negb_false_iff, Qle_bool_iff. by apply (Qle_trans _ y).
Qed.

(** The median does not depend on the order of the hours it is given. *)
Lemma Median_perm input input' :
  input ≡ₚ input' -> Forall (fun x => exists d, x = Hours d) input ->
  Median input = Median input'.
Proof.
  intros Hperm Hhours. unfold Median.
  assert (GoSort.insertionSort Qltb input = GoSort.insertionSort Qltb input') as ->;
    [|reflexivity].
  apply (StronglySorted_unique_strong (fun a b => Qltb b a = false)).
  - intros x y Hx Hy Hxy Hyx.
    rewrite Forall_forall in Hhours.
    destruct (Hhours x) as [dx ->]; [by rewrite <- (insertionSort_perm Qltb input)|].
    destruct (Hhours y) as [dy ->].
    { by rewrite Hperm, <- (insertionSort_perm Qltb input'). }
    unfold Qltb in Hxy, Hyx.
    apply negb_false_iff, Qle_bool_iff in Hxy, Hyx.
    rewrite !Hours_eq in *. unfold Qle in Hxy, Hyx. simpl in Hxy, Hyx.
    f_equal. lia.
  - apply insertionSort_sorted; [apply Qltb_asym|apply Qltb_negtrans].
  - apply insertionSort_sorted; [apply Qltb_asym|apply Qltb_negtrans].
  - by rewrite !insertionSort_perm.
Qed.

Lemma aggregate_formula `{GoRuntime} prStats n :
  aggregate prStats n
  = (average ← intDiv (sumInt (map (fun stat => wholeHours (TimeToReview stat))
                                   (reviewedStats prStats)) 0)
                      (Z.of_nat (length (reviewedStats prStats)));
     Returns {|
       AverageReviewTime := average;
       MedianReviewTime :=
         intOfMedian (Median (map (fun stat => Hours (TimeToReview stat))
                                  (reviewedStats prStats)));
       MedianTimeToMerge :=
         intOfMedian (Median (map (fun stat => Hours (TimeToMerge stat)) prStats));
       MedianLeadTimeForChanges :=
         intOfMedian (Median (map (fun stat => Hours (TimeToProduction stat))
                                  (deployedStats prStats)));
       TotalPullRequests := n;
       PullRequestsWithoutIssue :=
         Z.of_nat (length (List.filter (fun stat => negb (IsTrackedWithIssue stat)) prStats));
       PullRequestsWithReview := Z.of_nat (length (reviewedStats prStats))
     |}).
Proof.
  unfold aggregate.
  destruct (tally_fold prStats tallyZero) as (Hu & Hr & Hd & Hrt & Htm & Hlt & Htot).
  simpl in *. rewrite Z.add_0_l in Hu, Hr.
  by rewrite Hu, Hr, Hrt, Htm, Hlt, Htot.
Qed.

(** X13.  The aggregation does not depend on the order of the statistics
    of the batch: any rearrangement gives the same outcome, the same
    counts, average and medians. *)
Theorem aggregate_order_independent `{rt : GoRuntime} prStats prStats' n :
  prStats ≡ₚ prStats' -> aggregate prStats n = aggregate prStats' n.
Proof.
  intros Hperm. rewrite !aggregate_formula.
  assert (forall (f : pullRequestStatistics -> bool), List.filter f prStats
            ≡ₚ List.filter f prStats') as Hfilter by (intros f; by apply filter_perm).
  assert (forall (g : pullRequestStatistics -> Duration) l,
            Forall (fun x => exists d, x = Hours d) (map (fun stat => Hours (g stat)) l))
    as Hhours.
  { intros g l. apply Forall_forall. intros x Hx.
    apply list_elem_of_In, in_map_iff in Hx as (stat & <- & _). by eexists. }
  unfold reviewedStats, deployedStats.
  rewrite (sumInt_perm _ _ (Permutation_map _ (Hfilter WasReviewed)) 0).
  rewrite (Permutation_length (Hfilter WasReviewed)).
  rewrite (Permutation_length (Hfilter (fun stat => negb (IsTrackedWithIssue stat)))).
  rewrite (Median_perm _ _ (Permutation_map (fun stat => Hours (TimeToReview stat))
                              (Hfilter WasReviewed)) (Hhours _ _)).
  rewrite (Median_perm _ _ (Permutation_map (fun stat => Hours (TimeToMerge stat)) Hperm)
             (Hhours _ _)).
  rewrite (Median_perm _ _ (Permutation_map (fun stat => Hours (TimeToProduction stat))
                              (Hfilter WasDeployed)) (Hhours _ _)).
  reflexivity.
Qed.

Lemma aggregate_order_independent_witness :
  @aggregate amd64 [reviewedIn (2 * Hour); reviewedIn (7 * Hour); reviewedIn (3 * Hour)] 3
  = @aggregate amd64 [reviewedIn (7 * Hour); reviewedIn (2 * Hour); reviewedIn (3 * Hour)] 3.
Proof.
  apply (@aggregate_order_independent amd64). apply Permutation_swap.
Defined.


(** ** More on the correlator *)

(** X14.  When no pull request of the list is merged by the commit of a
    listed deployment (in particular when no deployment is listed), the
    mapping is empty, and every pull request processed against it is
    flagged as not deployed. *)
Theorem nothing_deployed_without_direct_match deployments pullRequests :
  (forall pr d, pr ∈ pullRequests -> d ∈ deployments ->
     Deployment.GetSHA d <> PullRequest.GetMergeCommitSHA pr) ->
  getDeploymentTimesForSHA deployments pullRequests = ∅
  /\ forall (rt : GoRuntime) fuel ghClient pr stat,
       processPullRequest fuel ghClient pr
         (getDeploymentTimesForSHA deployments pullRequests) = Returns stat ->
       WasDeployed stat = false.
Proof.
  intros Hnone.
  assert (getDeploymentTimesForSHA deployments pullRequests = ∅) as Hempty.
  { unfold getDeploymentTimesForSHA. rewrite correlateWalk_unmatched; [done|].
    intros q Hq. apply deploymentShas_None. intros d Hd. by apply Hnone. }
  split; [exact Hempty|].
  intros rt fuel ghClient pr stat Hret. rewrite Hempty in Hret.
  apply processPullRequest_inv in Hret as (events & isTracked & _ & _ & Hstat).
  simpl in Hstat. destruct Hstat as (_ & _ & _ & _ & _ & ->).
  by rewrite lookup_empty.
Qed.

Lemma nothing_deployed_without_direct_match_witness :
  getDeploymentTimesForSHA [deployC2] [PR3; PR1] = ∅.
Proof.
  apply (nothing_deployed_without_direct_match [deployC2] [PR3; PR1]).
  intros pr d Hpr Hd. apply list_elem_of_singleton in Hd as ->.
  apply elem_of_cons in Hpr as [->|Hpr]; [discriminate|].
  apply list_elem_of_singleton in Hpr as ->. discriminate.
Defined.

Lemma deploymentShas_fold_other deployments (m : gmap string Time) sha :
  (forall d, d ∈ deployments -> Deployment.GetSHA d <> sha) ->
  fold_left (fun m d => <[Deployment.GetSHA d := Deployment.GetCreatedAt d]> m)
            deployments m !! sha = m !! sha.
Proof.
  revert m. induction deployments as [|d ds IH]; intros m Hother; simpl; [done|].
  rewrite IH by (intros d' Hd'; apply Hother; by right).
  apply lookup_insert_ne, Hother. left.
Qed.

(** X15.  When several listed deployments have the same commit, the last
    listed one counts: once the walk passes a pull request merged by
    that commit, the most recent known deployment time is the creation
    time of the last deployment of the commit in the list. *)
Theorem last_listed_deployment_counts before d after walked pr :
  (forall d', d' ∈ after -> Deployment.GetSHA d' <> Deployment.GetSHA d) ->
  PullRequest.GetMergeCommitSHA pr = Deployment.GetSHA d ->
  deploymentShas (before ++ d :: after) !! Deployment.GetSHA d
  = Some (Deployment.GetCreatedAt d)
  /\ knownDeploymentTime (deploymentShas (before ++ d :: after)) (walked ++ [pr])
     = Deployment.GetCreatedAt d.
Proof.
  intros Hlast Hsha.
  assert (deploymentShas (before ++ d :: after) !! Deployment.GetSHA d
          = Some (Deployment.GetCreatedAt d)) as Hindex.
  { unfold deploymentShas. rewrite fold_left_app. simpl.
    rewrite deploymentShas_fold_other by done. apply lookup_insert_eq. }
  split; [exact Hindex|].
  unfold knownDeploymentTime. rewrite correlateWalk_snoc.
  destruct (correlateWalk _ walked) as [cur m]. unfold correlateStep.
  by rewrite Hsha, Hindex.
Qed.

(** The commit C2 is deployed at hour 425 and, listed after, at hour 300:
    a pull request that follows PR2 is recorded as deployed at hour 300. *)
Lemma last_listed_deployment_counts_witness :
  getDeploymentTimesForSHA [deployC2; sampleDeployment "C2" (300 * Hour)] [PR3; PR2; PR1]
    !! "C1" = Some (300 * Hour)
  /\ knownDeploymentTime (deploymentShas ([deployC2] ++ sampleDeployment "C2" (300 * Hour) :: []))
       ([PR3] ++ [PR2]) = 300 * Hour.
Proof.
  split; [reflexivity|].
  apply (last_listed_deployment_counts [deployC2] (sampleDeployment "C2" (300 * Hour)) []
           [PR3] PR2).
  - intros d' Hd'. by apply not_elem_of_nil in Hd'.
  - reflexivity.
Defined.

(** X16.  Where every entry of the mapping comes from: its key is the
    merge commit of a pull request that matches no deployment, and its
    value, which is not the zero time, is the creation time of a listed
    deployment whose commit is the merge commit of a pull request earlier
    in the list. *)
Theorem correlation_entry_provenance deployments pullRequests sha t :
  getDeploymentTimesForSHA deployments pullRequests !! sha = Some t ->
  IsZero t = false /\
  (forall d, d ∈ deployments -> Deployment.GetSHA d <> sha) /\
  exists before q between pr rest d,
    pullRequests = before ++ q :: between ++ pr :: rest /\
    PullRequest.GetMergeCommitSHA pr = sha /\
    d ∈ deployments /\
    Deployment.GetSHA d = PullRequest.GetMergeCommitSHA q /\
    Deployment.GetCreatedAt d = t.
Proof.
  intros Hentry.
  destruct (correlation_entries_forward_filled _ _ _ _ Hentry)
    as (walked & pr & rest & Hsplit & Hsha & Hnomatch & Hknown & Hz).
  split; [exact Hz|]. split; [exact Hnomatch|].
  rewrite <- Hknown in Hz.
  destruct (knownDeploymentTime_last_match _ walked Hz)
    as (before & q & between & Hwalked & Hq & _).
  rewrite Hknown in Hq.
  apply deploymentShas_lookup in Hq as (d & Hd & Hdsha & Hdt).
  exists before, q, between, pr, rest, d.
  split; [by rewrite Hsplit, Hwalked, <- app_assoc|]. done.
Qed.

Lemma correlation_entry_provenance_witness :
  IsZero (425 * Hour) = false /\
  (forall d, d ∈ [deployC2] -> Deployment.GetSHA d <> "C1") /\
  exists before q between pr rest d,
    [PR3; PR2; PR1] = before ++ q :: between ++ pr :: rest /\
    PullRequest.GetMergeCommitSHA pr = "C1" /\
    d ∈ [deployC2] /\
    Deployment.GetSHA d = PullRequest.GetMergeCommitSHA q /\
    Deployment.GetCreatedAt d = 425 * Hour.
Proof.
  apply (correlation_entry_provenance [deployC2] [PR3; PR2; PR1] "C1" (425 * Hour)).
  reflexivity.
Defined.


(** ** The earlier revision of the correlator *)

Lemma correlateV1_invariant shas pullRequests :
  let old := fold_left (correlateStepV1 shas) pullRequests (zeroTime, ∅) in
  let new := correlateWalk shas pullRequests in
  fst old = fst new /\
  (forall pr, pr ∈ pullRequests -> is_Some (snd old !! PullRequest.GetMergeCommitSHA pr)) /\
  (forall sha t, snd old !! sha = Some t -> IsZero t = false -> shas !! sha = None ->
     snd new !! sha = Some t) /\
  (forall sha t, snd new !! sha = Some t ->
     snd old !! sha = Some t \/ snd old !! sha = Some zeroTime).
Proof.
  induction pullRequests as [|q prs IH] using rev_ind; simpl.
  - split; [done|]. split; [by intros ? ?%not_elem_of_nil|]. split; intros sha t.
    + by rewrite lookup_empty.
    + by rewrite lookup_empty.
  - simpl in IH. rewrite correlateWalk_snoc, fold_left_app. simpl.
    pose proof (correlateWalk_inv shas prs) as Hinv.
    destruct (fold_left (correlateStepV1 shas) prs (zeroTime, ∅)) as [cur old].
    destruct (correlateWalk shas prs) as [cur' new]. simpl in IH.
    destruct IH as (<- & Hkeys & Hkept & Hfrom).
    unfold correlateStepV1, correlateStep.
    set (sha_q := PullRequest.GetMergeCommitSHA q).
    destruct (shas !! sha_q) as [value|] eqn:Hq; simpl.
    + split; [done|]. split; [|split].
      * intros pr [Hpr|Hpr%list_elem_of_singleton]%elem_of_app.
        -- destruct (decide (sha_q = PullRequest.GetMergeCommitSHA pr)) as [<-|Hne].
           ++ rewrite lookup_insert_eq. by eexists.
           ++ rewrite lookup_insert_ne by done. by apply Hkeys.
        -- subst pr. fold sha_q. rewrite lookup_insert_eq. by eexists.
      * intros sha t. destruct (decide (sha_q = sha)) as [<-|Hne].
        -- congruence.
        -- rewrite lookup_insert_ne by done. apply Hkept.
      * intros sha t Hnew. destruct (decide (sha_q = sha)) as [<-|Hne].
        -- destruct (Hinv sha_q t Hnew) as [_ Hc]. congruence.
        -- rewrite lookup_insert_ne by done. by apply Hfrom.
    + split; [by destruct (IsZero cur)|]. split; [|split].
      * intros pr [Hpr|Hpr%list_elem_of_singleton]%elem_of_app.
        -- destruct (decide (sha_q = PullRequest.GetMergeCommitSHA pr)) as [<-|Hne].
           ++ rewrite lookup_insert_eq. by eexists.
           ++ rewrite lookup_insert_ne by done. by apply Hkeys.
        -- subst pr. fold sha_q. rewrite lookup_insert_eq. by eexists.
      * intros sha t. destruct (decide (sha_q = sha)) as [<-|Hne].
        -- rewrite lookup_insert_eq. intros [= <-] Hz _. rewrite Hz. simpl.
           apply lookup_insert_eq.
        -- rewrite lookup_insert_ne by done. intros Ho Hz Hs.
           destruct (IsZero cur); simpl; [|rewrite lookup_insert_ne by done]; by apply Hkept.
      * intros sha t. destruct (decide (sha_q = sha)) as [<-|Hne].
        -- rewrite lookup_insert_eq. destruct (IsZero cur) eqn:Hz; simpl.
           ++ intros _. right. f_equal. unfold IsZero in Hz. unfold zeroTime. lia.
           ++ rewrite lookup_insert_eq. intros [= <-]. by left.
        -- rewrite lookup_insert_ne by done.
           destruct (IsZero cur); simpl; [|rewrite lookup_insert_ne by done]; apply Hfrom.
Qed.

Lemma fold_correlateStepV1_other shas prs st sha :
  sha ∉ (PullRequest.GetMergeCommitSHA <$> prs) ->
  snd (fold_left (correlateStepV1 shas) prs st) !! sha = snd st !! sha.
Proof.
  revert st. induction prs as [|pr prs IH]; intros st Hnot; simpl; [done|].
  rewrite fmap_cons, not_elem_of_cons in Hnot. destruct Hnot as [Hne Hnot].
  rewrite IH by done. destruct st as [cur m]. unfold correlateStepV1. simpl.
  by rewrite lookup_insert_ne.
Qed.

(** X17.  What the latest revision of [getDeploymentTimesForSHA] changed.
    The earlier revision saves every pull request, a directly matching
    one with the time of its deployment; the latest keeps the entries of
    the earlier one that hold a time other than the zero time under a
    commit that matches no deployment, and every entry it has is an entry
    of the earlier revision, unless that one holds the zero time. *)
Theorem latest_revision_keeps_forward_filled_entries deployments pullRequests :
  (forall pr, pr ∈ pullRequests ->
     is_Some (getDeploymentTimesForSHA_v1 deployments pullRequests
                !! PullRequest.GetMergeCommitSHA pr))
  /\ (forall walked pr rest t,
        pullRequests = walked ++ pr :: rest ->
        PullRequest.GetMergeCommitSHA pr ∉ (PullRequest.GetMergeCommitSHA <$> rest) ->
        deploymentShas deployments !! PullRequest.GetMergeCommitSHA pr = Some t ->
        getDeploymentTimesForSHA_v1 deployments pullRequests
          !! PullRequest.GetMergeCommitSHA pr = Some t)
  /\ (forall sha t,
        getDeploymentTimesForSHA_v1 deployments pullRequests !! sha = Some t ->
        IsZero t = false ->
        (forall d, d ∈ deployments -> Deployment.GetSHA d <> sha) ->
        getDeploymentTimesForSHA deployments pullRequests !! sha = Some t)
  /\ (forall sha t,
        getDeploymentTimesForSHA deployments pullRequests !! sha = Some t ->
        getDeploymentTimesForSHA_v1 deployments pullRequests !! sha = Some t \/
        getDeploymentTimesForSHA_v1 deployments pullRequests !! sha = Some zeroTime).
Proof.
  destruct (correlateV1_invariant (deploymentShas deployments) pullRequests)
    as (_ & Hkeys & Hkept & Hfrom).
  unfold getDeploymentTimesForSHA_v1, getDeploymentTimesForSHA.
  split; [exact Hkeys|]. split; [|split; [|exact Hfrom]].
  - intros walked pr rest t -> Hlater Hindex.
    rewrite fold_left_app. simpl.
    rewrite fold_correlateStepV1_other by done.
    destruct (fold_left _ walked _) as [cur m]. unfold correlateStepV1.
    rewrite Hindex. simpl. apply lookup_insert_eq.
  - intros sha t Hold Hz Hnomatch. apply Hkept; [done..|].
    by apply deploymentShas_None.
Qed.

(** On the scenario of the correlator the earlier revision has the three
    pull requests, the latest only PR1. *)
Lemma latest_revision_keeps_forward_filled_entries_witness :
  getDeploymentTimesForSHA_v1 [deployC2] [PR3; PR2; PR1] !! "C2" = Some (425 * Hour) /\
  getDeploymentTimesForSHA_v1 [deployC2] [PR3; PR2; PR1] !! "C3" = Some zeroTime /\
  getDeploymentTimesForSHA [deployC2] [PR3; PR2; PR1] !! "C1" = Some (425 * Hour).
Proof.
  destruct (latest_revision_keeps_forward_filled_entries [deployC2] [PR3; PR2; PR1])
    as (_ & Hdirect & Hkept & _).
  split; [|split; [reflexivity|]].
  - apply (Hdirect [PR3] PR2 [PR1]); [reflexivity| |reflexivity].
    apply (bool_decide_unpack _). vm_compute. exact I.
  - apply Hkept; [reflexivity|reflexivity|].
    intros d Hd. apply list_elem_of_singleton in Hd as ->. discriminate.
Defined.

(** ** The main function *)

Lemma beforeBoundary_incl now prs p : p ∈ beforeBoundary now prs -> p ∈ prs.
Proof.
  induction prs as [|q prs IH]; simpl; [done|].
  destruct (pastBoundary now q); [by intros ?%not_elem_of_nil|].
  intros [->|Hp]%elem_of_cons; [left|right; by apply IH].
Qed.

Lemma AnalyzePullRequests_total `{GoRuntime} fuel ghClient prs m :
  AnalyzePullRequests fuel ghClient prs = Returns m ->
  TotalPullRequests m = Z.of_nat (length prs).
Proof.
  unfold AnalyzePullRequests.
  destruct (forEach _ prs) as [prStats|f]; simpl; [|done].
  intros Hagg. by apply aggregate_inv in Hagg as (_ & _ & _ & _ & _ & -> & _).
Qed.

(** X18.  An empty window ends the program with a panic: when the
    environment is loaded, both flags are given and the source of closed
    pull requests lists none merged within the last two weeks, [main]
    selects no pull request and [AnalyzePullRequests] divides by zero; no
    metrics are printed. *)
Theorem main_panics_on_empty_window `{rt : GoRuntime} ownerFlag repoFlag github
    fuel now pages :
  ownerFlag <> "" -> repoFlag <> "" ->
  (forall page, PullRequests_List (github ownerFlag repoFlag) page = servePages pages page) ->
  fuelFor pages fuel ->
  (forall p, p ∈ concat pages -> mergedWithinWindow now p = false) ->
  main true ownerFlag repoFlag github fuel now = Aborts DivideByZero.
Proof.
  intros Howner Hrepo Hserve [H1 Hlen] Hnone.
  unfold main, getRepoToStudy. simpl.
  apply String.eqb_neq in Howner, Hrepo. rewrite Howner, Hrepo. simpl.
  unfold getPullRequestsFromLastTwoWeeks.
  rewrite (selectLoop_served _ pages now Hserve) by (simpl; lia). simpl.
  rewrite drop_0.
  assert (List.filter hasMergeTime (beforeBoundary now (concat pages)) = []) as ->.
  { destruct (List.filter hasMergeTime (beforeBoundary now (concat pages))) as [|p l] eqn:Hf;
      [done|].
    assert (In p (List.filter hasMergeTime (beforeBoundary now (concat pages)))) as Hp
      by (rewrite Hf; by left).
    apply List.filter_In in Hp as [Hp Hm]. apply list_elem_of_In in Hp.
    assert (mergedWithinWindow now p = true) as Hin.
    { apply within_window_iff. split; [done|]. by eapply beforeBoundary_not_past. }
    rewrite Hnone in Hin; [done|]. by eapply beforeBoundary_incl. }
  reflexivity.
Qed.

(** At hour 2000 every pull request of the sample source was merged more
    than two weeks ago. *)
Lemma main_panics_on_empty_window_witness :
  @main amd64 true "JaspervanRiet" "boots"
    (fun _ _ => sampleClient closedPulls scenarioTimeline [deployC2]) 3 (2000 * Hour)
  = Aborts DivideByZero.
Proof.
  apply (@main_panics_on_empty_window amd64 "JaspervanRiet" "boots"
           (fun _ _ => sampleClient closedPulls scenarioTimeline [deployC2])
           3 (2000 * Hour) closedPulls).
  - discriminate.
  - discriminate.
  - intros page. reflexivity.
  - split; simpl; lia.
  - intros p Hp. simpl in Hp.
    repeat (apply elem_of_cons in Hp as [->|Hp]; [reflexivity|]).
    by apply not_elem_of_nil in Hp.
Defined.

(** X19.  When [main] obtains metrics, the environment was loaded and both
    flags were given, the selector returned pull requests that all were
    merged within the last two weeks, at least one of them, and the total
    reported is their number. *)
Theorem main_reports_selected_pull_requests `{rt : GoRuntime} envLoaded ownerFlag repoFlag
    github fuel now m :
  main envLoaded ownerFlag repoFlag github fuel now = Returns m ->
  envLoaded = true /\ ownerFlag <> "" /\ repoFlag <> "" /\
  exists log prs,
    getPullRequestsFromLastTwoWeeks fuel (github ownerFlag repoFlag) now
    = (log, Returns prs) /\
    prs <> [] /\
    Forall (fun p => mergedWithinWindow now p = true) prs /\
    AnalyzePullRequests fuel (github ownerFlag repoFlag) prs = Returns m /\
    TotalPullRequests m = Z.of_nat (length prs).
Proof.
  unfold main, getRepoToStudy. intros Hmain.
  destruct envLoaded; simpl in Hmain; [|done]. split; [done|].
  destruct (String.eqb_spec ownerFlag "") as [|Howner]; simpl in Hmain; [done|].
  destruct (String.eqb_spec repoFlag "") as [|Hrepo]; simpl in Hmain; [done|].
  split; [done|]. split; [done|].
  destruct (getPullRequestsFromLastTwoWeeks fuel (github ownerFlag repoFlag) now)
    as [log [prs|f]] eqn:Hsel; simpl in Hmain; [|done].
  destruct (AnalyzePullRequests fuel (github ownerFlag repoFlag) prs) as [m'|f] eqn:Hm;
    simpl in Hmain; [|done].
  injection Hmain as ->. exists log, prs. split; [done|].
  split; [intros ->; by rewrite AnalyzePullRequests_empty_panics in Hm|].
  split; [eapply selectLoop_within; [|exact Hsel]; constructor|].
  split; [done|]. by apply AnalyzePullRequests_total in Hm.
Qed.

(** At hour 600 three pull requests of the sample source are within the
    window; all three are analysed. *)
Lemma main_reports_selected_pull_requests_witness :
  exists m,
    @main amd64 true "JaspervanRiet" "boots"
      (fun _ _ => sampleClient closedPulls scenarioTimeline [deployC2]) 3 (600 * Hour)
    = Returns m /\
    TotalPullRequests m = 3.
Proof.
  pose proof (@main_reports_selected_pull_requests amd64 true "JaspervanRiet" "boots"
                (fun _ _ => sampleClient closedPulls scenarioTimeline [deployC2])
                3 (600 * Hour)) as H.
  destruct (@main amd64 true "JaspervanRiet" "boots"
              (fun _ _ => sampleClient closedPulls scenarioTimeline [deployC2])
              3 (600 * Hour)) as [m|f] eqn:Hret.
  - destruct (H m eq_refl) as (_ & _ & _ & log & prs & _).
    exists m. split; [reflexivity|].
    vm_compute in Hret. injection Hret as <-. reflexivity.
  - vm_compute in Hret. discriminate Hret.
Defined.

(** ** The early stop of the selector *)

(** X20.  The selector does not look past the first merged pull request
    at or past the boundary of the window: over a served source, a pull
    request that is listed only after such a one is not returned, even
    when it was merged within the window. *)
Theorem selector_returns_nothing_after_boundary fuel ghClient now pages listed p rest q :
  (forall page, PullRequests_List ghClient page = servePages pages page) ->
  fuelFor pages fuel ->
  concat pages = listed ++ p :: rest ->
  pastBoundary now p = true ->
  q ∉ listed ->
  exists log prs,
    getPullRequestsFromLastTwoWeeks fuel ghClient now = (log, Returns prs) /\ q ∉ prs.
Proof.
  intros Hserve [H1 Hlen] Hsplit Hpast Hq.
  unfold getPullRequestsFromLastTwoWeeks.
  rewrite (selectLoop_served _ pages now Hserve) by (simpl; lia). simpl. rewrite drop_0.
  eexists _, _. split; [reflexivity|].
  intros Hin. apply Hq.
  apply list_elem_of_In, List.filter_In in Hin as [Hin _]. apply list_elem_of_In in Hin.
  rewrite Hsplit, beforeBoundary_app in Hin.
  destruct (existsb (pastBoundary now) listed).
  - by eapply beforeBoundary_incl.
  - simpl in Hin. rewrite Hpast, app_nil_r in Hin. exact Hin.
Qed.

(** An unordered source: a pull request merged at hour 590 is listed after
    one merged at hour 100; at hour 600 it is not selected. *)
Lemma selector_returns_nothing_after_boundary_witness :
  getPullRequestsFromLastTwoWeeks 1
    (sampleClient [[ samplePR 10 "C10" "feature/JIRA-10" (50 * Hour) (100 * Hour);
                     samplePR 15 "C15" "feature/JIRA-15" (500 * Hour) (590 * Hour) ]] [] [])
    (600 * Hour)
  = ([0%nat], Returns []).
Proof.
  destruct (selector_returns_nothing_after_boundary 1
              (sampleClient [[ samplePR 10 "C10" "feature/JIRA-10" (50 * Hour) (100 * Hour);
                               samplePR 15 "C15" "feature/JIRA-15" (500 * Hour) (590 * Hour) ]]
                 [] [])
              (600 * Hour)
              [[ samplePR 10 "C10" "feature/JIRA-10" (50 * Hour) (100 * Hour);
                 samplePR 15 "C15" "feature/JIRA-15" (500 * Hour) (590 * Hour) ]]
              [] (samplePR 10 "C10" "feature/JIRA-10" (50 * Hour) (100 * Hour))
              [samplePR 15 "C15" "feature/JIRA-15" (500 * Hour) (590 * Hour)]
              (samplePR 15 "C15" "feature/JIRA-15" (500 * Hour) (590 * Hour)))
    as (log & prs & Hrun & Hq).
  - intros page. reflexivity.
  - split; simpl; lia.
  - reflexivity.
  - reflexivity.
  - apply not_elem_of_nil.
  - reflexivity.
Defined.
